(** * Workbench SDK (Python): the resource layer, embedded and verified

    The development covers [workbench/resources/service_requests.py],
    [workbench/resources/webhooks.py] and the parts of [workbench/types.py]
    they annotate their results with.

    Layout:
    - [Py]: the fragment of Python the resource methods rely on (values,
      dictionaries, the rules that bind the arguments of a call to the
      parameters of a [def]);
    - [Transport]: the interface of the shared client ([self._client]) the
      methods delegate to, as a request record, a small program monad and
      an interpreter that logs every request;
    - [Types]: the [TypedDict] catalogue;
    - [ServiceRequests], [Webhooks]: the resource methods;
    - the lemmas and the theorems about them. *)

From stdpp Require Import gmap strings list fin_maps.

Set Warnings "-register-all".
Set Default Proof Using "Type".
Open Scope string_scope.

(* ===================================================================== *)
(** ** The Python fragment                                                *)
(* ===================================================================== *)

Module Py.

(** Run-time values: what a caller can pass as an argument and what the
    transport decodes from JSON. [VObj] stands for any other object,
    known by its class only. *)
Inductive value : Type :=
| VNone
| VBool (b : bool)
| VInt (n : Z)
| VStr (s : string)
| VList (items : list value)
| VDict (entries : gmap string value)
| VObj (cls : string).

(** [v is None] *)
Definition is_none (v : value) : bool :=
  match v with VNone => true | _ => false end.

(** A [dict] with [str] keys. *)
Abbreviation dict := (gmap string value).

(** A dictionary display [{k1: v1, ..., kn: vn}]: the items are stored
    left to right, a later item replacing an earlier one with its key. *)
Definition dict_display (items : list (string * value)) : dict :=
  foldl (λ d kv, <[kv.1 := kv.2]> d) ∅ items.

(** A comprehension [{k: v for k, v in d.items() if keep k v}]. *)
Definition dict_comp (keep : string → value → bool) (d : dict) : dict :=
  filter (λ kv, keep kv.1 kv.2 = true) d.

(** The parameter list of a [def]: positional-or-keyword parameters in
    order, each with its default when it has one, and whether a
    [**kwargs] parameter closes the list. *)
Record signature := {
  sig_params : list (string * option value);
  sig_varkw : bool
}.

(** The arguments of one call: the positional ones, then the keyword
    ones as written. For a method call the receiver is the first
    positional argument. *)
Record call_args := {
  c_pos : list value;
  c_kw : list (string * value)
}.

(** The ways a call is refused before the body runs; each one is a
    [TypeError]. *)
Inductive type_error :=
| TooManyPositional
| MultipleValues (name : string)
| UnexpectedKeyword (name : string)
| MissingArgument (name : string).

(** What a call binds: the parameters, and the contents of [**kwargs]. *)
Record frame := {
  f_locals : dict;
  f_kwargs : dict
}.

(** Positional arguments fill the parameters from the left. *)
Fixpoint bind_positional (ps : list (string * option value))
    (pos : list value) (locals : dict) : type_error + dict :=
  match pos, ps with
  | [], _ => inr locals
  | v :: pos', (p, _) :: ps' => bind_positional ps' pos' (<[p := v]> locals)
  | _ :: _, [] => inl TooManyPositional
  end.

(** A keyword argument goes to the parameter of that name, which must
    not have a value yet; a name that is no parameter goes to
    [**kwargs] when the signature has one. *)
Fixpoint bind_keywords (names : list string) (varkw : bool)
    (kws : list (string * value)) (fr : frame) : type_error + frame :=
  match kws with
  | [] => inr fr
  | (k, v) :: kws' =>
      if decide (k ∈ names) then
        match f_locals fr !! k with
        | Some _ => inl (MultipleValues k)
        | None =>
            bind_keywords names varkw kws'
              {| f_locals := <[k := v]> (f_locals fr); f_kwargs := f_kwargs fr |}
        end
      else if varkw then
        match f_kwargs fr !! k with
        | Some _ => inl (MultipleValues k)
        | None =>
            bind_keywords names varkw kws'
              {| f_locals := f_locals fr; f_kwargs := <[k := v]> (f_kwargs fr) |}
        end
      else inl (UnexpectedKeyword k)
  end.

(** A parameter left without a value takes its default; without a
    default the call is refused. *)
Fixpoint bind_defaults (ps : list (string * option value))
    (locals : dict) : type_error + dict :=
  match ps with
  | [] => inr locals
  | (p, d) :: ps' =>
      match locals !! p with
      | Some _ => bind_defaults ps' locals
      | None =>
          match d with
          | Some v => bind_defaults ps' (<[p := v]> locals)
          | None => inl (MissingArgument p)
          end
      end
  end.

Definition bind_args (sg : signature) (c : call_args) : type_error + frame :=
  match bind_positional (sig_params sg) (c_pos c) ∅ with
  | inl e => inl e
  | inr locals =>
      match bind_keywords (sig_params sg).*1 (sig_varkw sg) (c_kw c)
              {| f_locals := locals; f_kwargs := ∅ |} with
      | inl e => inl e
      | inr fr =>
          match bind_defaults (sig_params sg) (f_locals fr) with
          | inl e => inl e
          | inr locals' => inr {| f_locals := locals'; f_kwargs := f_kwargs fr |}
          end
      end
  end.

(** The value of a bound parameter. Every parameter is bound once
    [bind_args] succeeds; the fallback is never reached then. *)
Definition local (fr : frame) (p : string) : value :=
  default VNone (f_locals fr !! p).

(** How a call of a method ends up: refused with a [TypeError], outside
    the annotations the model covers (an [id] that is no [str]: the
    f-string would format it, which is not modelled), or in the body. *)
Inductive entry (A : Type) : Type :=
| Refused (e : type_error)
| Unannotated
| Enters (body : A).
Arguments Refused {A} e.
Arguments Unannotated {A}.
Arguments Enters {A} body.

(** Whether the call raised [TypeError] instead of running the body. *)
Definition refused {A} (e : entry A) : bool :=
  match e with Refused _ => true | _ => false end.

(** A parameter declared [Optional[...] = None]. *)
Definition optional (p : string) : string * option value := (p, Some VNone).
(** A parameter without default. *)
Definition required (p : string) : string * option value := (p, None).

End Py.

(* ===================================================================== *)
(** ** The shared transport                                               *)
(* ===================================================================== *)

Module Transport.
Import Py.

Inductive verb := GET | POST | PUT | DELETE.

(** One call of [self._client.get/post/put/delete]: the path, and the
    [params=] and [json=] keyword arguments when the call passes them. *)
Record request := {
  r_verb : verb;
  r_path : string;
  r_params : option dict;
  r_json : option dict
}.

(** An exception raised by the transport, opaque to the resource layer. *)
Record failure := {
  failure_class : string;
  failure_message : string
}.

Inductive outcome (A : Type) : Type :=
| Returned (a : A)
| Raised (e : failure).
Arguments Returned {A} a.
Arguments Raised {A} e.

(** A method body over the transport: it returns, or it calls the
    transport and goes on with the decoded response. No body in the
    resource layer has a [try]; an exception of the transport therefore
    ends the body, which is what [run] does. *)
Inductive prog (A : Type) : Type :=
| Ret (a : A)
| Call (r : request) (k : value → prog A).
Arguments Ret {A} a.
Arguments Call {A} r k.

Fixpoint pbind {A B} (p : prog A) (f : A → prog B) : prog B :=
  match p with
  | Ret a => f a
  | Call r k => Call r (λ v, pbind (k v) f)
  end.

#[global] Instance prog_ret : MRet prog := @Ret.
#[global] Instance prog_bind : MBind prog := λ A B f p, pbind p f.

Definition client_get (path : string) (params : option dict) : prog value :=
  Call {| r_verb := GET; r_path := path; r_params := params; r_json := None |} Ret.
Definition client_post (path : string) (json : option dict) : prog value :=
  Call {| r_verb := POST; r_path := path; r_params := None; r_json := json |} Ret.
Definition client_put (path : string) (json : option dict) : prog value :=
  Call {| r_verb := PUT; r_path := path; r_params := None; r_json := json |} Ret.
Definition client_delete (path : string) : prog value :=
  Call {| r_verb := DELETE; r_path := path; r_params := None; r_json := None |} Ret.

(** The transport itself is an external collaborator: any function from
    a request and its own state to an outcome and a new state. *)
Definition transport (St : Type) : Type := request → St → outcome value * St.

(** What running a body gives: its outcome, the transport's final state
    and the requests it received, oldest first. *)
Record observed (St A : Type) := {
  o_outcome : outcome A;
  o_state : St;
  o_requests : list request
}.
Arguments o_outcome {St A} _.
Arguments o_state {St A} _.
Arguments o_requests {St A} _.

Fixpoint run {St A} (t : transport St) (p : prog A) (s : St) : observed St A :=
  match p with
  | Ret a => {| o_outcome := Returned a; o_state := s; o_requests := [] |}
  | Call r k =>
      match t r s with
      | (Returned v, s') =>
          let o := run t (k v) s' in
          {| o_outcome := o_outcome o; o_state := o_state o;
             o_requests := r :: o_requests o |}
      | (Raised e, s') =>
          {| o_outcome := Raised e; o_state := s'; o_requests := [r] |}
      end
  end.

End Transport.

(* ===================================================================== *)
(** ** The type catalogue ([workbench/types.py])                          *)
(* ===================================================================== *)

Module Types.

Inductive ty :=
| TStr
| TInt
| TBool
| TAny
| TLiteral (alts : list string)
| TOptional (t : ty)
| TList (t : ty)
| TDict (k v : ty)
| TRecord (name : string).

(** A key of a [TypedDict]; [fd_required] is false under [NotRequired]
    and in a class declared with [total=False]. *)
Record field := {
  fd_name : string;
  fd_type : ty;
  fd_required : bool
}.

Record typed_dict := {
  td_name : string;
  td_fields : list field
}.

Definition key (n : string) (t : ty) : field :=
  {| fd_name := n; fd_type := t; fd_required := true |}.
Definition not_required (n : string) (t : ty) : field :=
  {| fd_name := n; fd_type := t; fd_required := false |}.

Definition keys (td : typed_dict) : list string := fd_name <$> td_fields td.

Definition ServiceRequestStatus : ty :=
  TLiteral ["new"; "reviewing"; "scheduled"; "completed"; "cancelled"; "declined"].
Definition ServiceRequestPriority : ty :=
  TLiteral ["low"; "medium"; "high"; "urgent"].

Definition ServiceRequest : typed_dict := {|
  td_name := "ServiceRequest";
  td_fields := [
    key "id" TStr;
    key "business_id" TStr;
    key "client_id" (TOptional TStr);
    key "title" TStr;
    key "description" (TOptional TStr);
    key "status" ServiceRequestStatus;
    key "source" (TOptional TStr);
    key "priority" (TOptional ServiceRequestPriority);
    key "requested_date" (TOptional TStr);
    key "preferred_time" (TOptional TStr);
    key "address" (TOptional TStr);
    key "contact_name" (TOptional TStr);
    key "contact_email" (TOptional TStr);
    key "contact_phone" (TOptional TStr);
    key "notes" (TOptional TStr);
    not_required "client" (TRecord "Client");
    key "created_at" TStr;
    key "updated_at" TStr ]
|}.

(** [class UpdateServiceRequestParams(TypedDict, total=False)]: the
    fields an update is meant to change. *)
Definition UpdateServiceRequestParams : typed_dict := {|
  td_name := "UpdateServiceRequestParams";
  td_fields := [
    not_required "client_id" (TOptional TStr);
    not_required "title" TStr;
    not_required "description" (TOptional TStr);
    not_required "status" ServiceRequestStatus;
    not_required "source" (TOptional TStr);
    not_required "priority" (TOptional ServiceRequestPriority);
    not_required "requested_date" (TOptional TStr);
    not_required "preferred_time" (TOptional TStr);
    not_required "address" (TOptional TStr);
    not_required "contact_name" (TOptional TStr);
    not_required "contact_email" (TOptional TStr);
    not_required "contact_phone" (TOptional TStr);
    not_required "notes" (TOptional TStr) ]
|}.

Definition WebhookEvent : ty :=
  TLiteral [
    "client.created"; "client.updated"; "client.deleted";
    "invoice.created"; "invoice.sent"; "invoice.paid"; "invoice.overdue";
    "quote.created"; "quote.sent"; "quote.accepted"; "quote.rejected";
    "job.created"; "job.status_changed"; "job.completed";
    "service_request.created"; "service_request.assigned" ].

Definition Webhook : typed_dict := {|
  td_name := "Webhook";
  td_fields := [
    key "id" TStr;
    key "business_id" TStr;
    key "name" TStr;
    key "url" TStr;
    key "events" (TList WebhookEvent);
    key "secret" TStr;
    key "is_active" TBool;
    key "created_at" TStr;
    key "updated_at" TStr ]
|}.

Definition WebhookDelivery : typed_dict := {|
  td_name := "WebhookDelivery";
  td_fields := [
    key "id" TStr;
    key "webhook_id" TStr;
    key "event_type" WebhookEvent;
    key "payload" (TDict TStr TAny);
    key "response_status" (TOptional TInt);
    key "response_body" (TOptional TStr);
    key "attempt_count" TInt;
    key "next_retry_at" (TOptional TStr);
    key "delivered_at" (TOptional TStr);
    key "failed_at" (TOptional TStr);
    key "created_at" TStr ]
|}.

(** What the [data] of an envelope is annotated with: a [TypedDict] of
    the catalogue or a plain [Dict[k, v]]. *)
Inductive payload :=
| Entity (td : typed_dict)
| Mapping (k v : ty).

(** A return annotation: [ApiResponse[T]] ([data: T]),
    [ListResponse[T]] ([data: List[T]]) or [None]. *)
Inductive annotation :=
| ApiResponse (data : payload)
| ListResponse (item : payload)
| ReturnsNone.

(** The keys the annotation declares for a record under [data]. *)
Definition data_keys (a : annotation) : list string :=
  match a with
  | ApiResponse (Entity td) | ListResponse (Entity td) => keys td
  | _ => []
  end.

(** Whether the annotation declares key [k] for a record under [data]. *)
Definition declares (a : annotation) (k : string) : bool :=
  bool_decide (k ∈ data_keys a).

(** The parameter shapes of the two resources. *)
Definition CreateServiceRequestParams : typed_dict := {|
  td_name := "CreateServiceRequestParams";
  td_fields := [
    key "title" TStr;
    not_required "client_id" (TOptional TStr);
    not_required "description" (TOptional TStr);
    not_required "status" ServiceRequestStatus;
    not_required "source" (TOptional TStr);
    not_required "priority" (TOptional ServiceRequestPriority);
    not_required "requested_date" (TOptional TStr);
    not_required "preferred_time" (TOptional TStr);
    not_required "address" (TOptional TStr);
    not_required "contact_name" (TOptional TStr);
    not_required "contact_email" (TOptional TStr);
    not_required "contact_phone" (TOptional TStr);
    not_required "notes" (TOptional TStr) ]
|}.

Definition ListServiceRequestsParams : typed_dict := {|
  td_name := "ListServiceRequestsParams";
  td_fields := [
    not_required "page" TInt;
    not_required "per_page" TInt;
    not_required "search" TStr;
    not_required "sort" TStr;
    not_required "order" (TLiteral ["asc"; "desc"]);
    not_required "status" ServiceRequestStatus;
    not_required "priority" ServiceRequestPriority;
    not_required "client_id" TStr ]
|}.

Definition CreateWebhookParams : typed_dict := {|
  td_name := "CreateWebhookParams";
  td_fields := [
    key "name" TStr;
    key "url" TStr;
    key "events" (TList WebhookEvent) ]
|}.

Definition UpdateWebhookParams : typed_dict := {|
  td_name := "UpdateWebhookParams";
  td_fields := [
    not_required "name" TStr;
    not_required "url" TStr;
    not_required "events" (TList WebhookEvent);
    not_required "is_active" TBool ]
|}.

Definition ListWebhookDeliveriesParams : typed_dict := {|
  td_name := "ListWebhookDeliveriesParams";
  td_fields := [
    not_required "page" TInt;
    not_required "per_page" TInt;
    not_required "event_type" WebhookEvent ]
|}.

(** The keys a [TypedDict] requires. *)
Definition required_keys (td : typed_dict) : list string :=
  fd_name <$> filter (λ f, fd_required f = true) (td_fields td).

End Types.

(* ===================================================================== *)
(** ** [ServiceRequestsResource]                                          *)
(* ===================================================================== *)

Module ServiceRequests.
Import Py Transport.

(** The receiver of a method call. *)
Definition self : value := VObj "ServiceRequestsResource".

(** [create]: the body before the comprehension. *)
Definition create_fields
    (title client_id description status source priority requested_date
     preferred_time address contact_name contact_email contact_phone
     notes : value) : dict :=
  dict_display [
    ("title", title);
    ("client_id", client_id);
    ("description", description);
    ("status", status);
    ("source", source);
    ("priority", priority);
    ("requested_date", requested_date);
    ("preferred_time", preferred_time);
    ("address", address);
    ("contact_name", contact_name);
    ("contact_email", contact_email);
    ("contact_phone", contact_phone);
    ("notes", notes) ].

(** [v is not None or k == "title"] *)
Definition create_keeps (k : string) (v : value) : bool :=
  negb (is_none v) || String.eqb k "title".

(** [create]: the [data] sent as [json=]. *)
Definition create_data
    (title client_id description status source priority requested_date
     preferred_time address contact_name contact_email contact_phone
     notes : value) : dict :=
  dict_comp create_keeps
    (create_fields title client_id description status source priority
       requested_date preferred_time address contact_name contact_email
       contact_phone notes).

(** [v is not None] *)
Definition update_keeps (k : string) (v : value) : bool := negb (is_none v).

(** [update]: the [data] sent as [json=]. *)
Definition update_data (kwargs : dict) : dict := dict_comp update_keeps kwargs.

(** [list]: the [params] mapping. *)
Definition list_params
    (page per_page search sort order status priority client_id : value) : dict :=
  dict_display [
    ("page", page);
    ("per_page", per_page);
    ("search", search);
    ("sort", sort);
    ("order", order);
    ("status", status);
    ("priority", priority);
    ("client_id", client_id) ].

Definition list_sig : signature := {|
  sig_params := [
    required "self";
    optional "page"; optional "per_page"; optional "search";
    optional "sort"; optional "order"; optional "status";
    optional "priority"; optional "client_id" ];
  sig_varkw := false
|}.

Definition get_sig : signature := {|
  sig_params := [ required "self"; required "id" ];
  sig_varkw := false
|}.

Definition create_sig : signature := {|
  sig_params := [
    required "self"; required "title";
    optional "client_id"; optional "description"; optional "status";
    optional "source"; optional "priority"; optional "requested_date";
    optional "preferred_time"; optional "address"; optional "contact_name";
    optional "contact_email"; optional "contact_phone"; optional "notes" ];
  sig_varkw := false
|}.

Definition update_sig : signature := {|
  sig_params := [ required "self"; required "id" ];
  sig_varkw := true
|}.

Definition delete_sig : signature := get_sig.

Definition list
    (page per_page search sort order status priority client_id : value)
    : prog value :=
  client_get "/v1/service-requests"
    (Some (list_params page per_page search sort order status priority client_id)).

Definition get (id : string) : prog value :=
  client_get ("/v1/service-requests/" ++ id) None.

Definition create
    (title client_id description status source priority requested_date
     preferred_time address contact_name contact_email contact_phone
     notes : value) : prog value :=
  client_post "/v1/service-requests"
    (Some (create_data title client_id description status source priority
             requested_date preferred_time address contact_name
             contact_email contact_phone notes)).

Definition update (id : string) (kwargs : dict) : prog value :=
  client_put ("/v1/service-requests/" ++ id) (Some (update_data kwargs)).

Definition delete (id : string) : prog value :=
  _ ← client_delete ("/v1/service-requests/" ++ id); mret VNone.

(** The methods as a caller reaches them: the arguments of the call are
    bound to the parameters first. *)
Definition call_list (c : call_args) : entry (prog value) :=
  match bind_args list_sig c with
  | inl e => Refused e
  | inr fr =>
      Enters (list (local fr "page") (local fr "per_page") (local fr "search")
                (local fr "sort") (local fr "order") (local fr "status")
                (local fr "priority") (local fr "client_id"))
  end.

Definition call_get (c : call_args) : entry (prog value) :=
  match bind_args get_sig c with
  | inl e => Refused e
  | inr fr =>
      match local fr "id" with
      | VStr id => Enters (get id)
      | _ => Unannotated
      end
  end.

Definition call_create (c : call_args) : entry (prog value) :=
  match bind_args create_sig c with
  | inl e => Refused e
  | inr fr =>
      Enters (create (local fr "title") (local fr "client_id")
                (local fr "description") (local fr "status")
                (local fr "source") (local fr "priority")
                (local fr "requested_date") (local fr "preferred_time")
                (local fr "address") (local fr "contact_name")
                (local fr "contact_email") (local fr "contact_phone")
                (local fr "notes"))
  end.

Definition call_update (c : call_args) : entry (prog value) :=
  match bind_args update_sig c with
  | inl e => Refused e
  | inr fr =>
      match local fr "id" with
      | VStr id => Enters (update id (f_kwargs fr))
      | _ => Unannotated
      end
  end.

Definition call_delete (c : call_args) : entry (prog value) :=
  match bind_args delete_sig c with
  | inl e => Refused e
  | inr fr =>
      match local fr "id" with
      | VStr id => Enters (delete id)
      | _ => Unannotated
      end
  end.

End ServiceRequests.

(* ===================================================================== *)
(** ** [WebhooksResource]                                                 *)
(* ===================================================================== *)

Module Webhooks.
Import Py Transport.

Definition self : value := VObj "WebhooksResource".

(** [list]: the [params] mapping. *)
Definition list_params (page per_page : value) : dict :=
  dict_display [ ("page", page); ("per_page", per_page) ].

(** [create]: the [data] sent as [json=]; there is no comprehension. *)
Definition create_data (name url events : value) : dict :=
  dict_display [ ("name", name); ("url", url); ("events", events) ].

(** [update]: the body before the comprehension. *)
Definition update_fields (name url events is_active : value) : dict :=
  dict_display [
    ("name", name); ("url", url); ("events", events);
    ("is_active", is_active) ].

(** [v is not None] *)
Definition update_keeps (k : string) (v : value) : bool := negb (is_none v).

(** [update]: the [data] sent as [json=]. *)
Definition update_data (name url events is_active : value) : dict :=
  dict_comp update_keeps (update_fields name url events is_active).

(** [list_deliveries]: the [params] mapping. *)
Definition list_deliveries_params (page per_page event_type : value) : dict :=
  dict_display [
    ("page", page); ("per_page", per_page); ("event_type", event_type) ].

Definition list_sig : signature := {|
  sig_params := [ required "self"; optional "page"; optional "per_page" ];
  sig_varkw := false
|}.

Definition get_sig : signature := {|
  sig_params := [ required "self"; required "id" ];
  sig_varkw := false
|}.

Definition create_sig : signature := {|
  sig_params := [
    required "self"; required "name"; required "url"; required "events" ];
  sig_varkw := false
|}.

Definition update_sig : signature := {|
  sig_params := [
    required "self"; required "id";
    optional "name"; optional "url"; optional "events";
    optional "is_active" ];
  sig_varkw := false
|}.

Definition delete_sig : signature := get_sig.

Definition list_deliveries_sig : signature := {|
  sig_params := [
    required "self"; required "webhook_id";
    optional "page"; optional "per_page"; optional "event_type" ];
  sig_varkw := false
|}.

Definition test_sig : signature := get_sig.

Definition list (page per_page : value) : prog value :=
  client_get "/v1/webhooks" (Some (list_params page per_page)).

Definition get (id : string) : prog value :=
  client_get ("/v1/webhooks/" ++ id) None.

Definition create (name url events : value) : prog value :=
  client_post "/v1/webhooks" (Some (create_data name url events)).

Definition update (id : string) (name url events is_active : value)
    : prog value :=
  client_put ("/v1/webhooks/" ++ id)
    (Some (update_data name url events is_active)).

Definition delete (id : string) : prog value :=
  _ ← client_delete ("/v1/webhooks/" ++ id); mret VNone.

Definition list_deliveries (webhook_id : string)
    (page per_page event_type : value) : prog value :=
  client_get ("/v1/webhooks/" ++ webhook_id ++ "/deliveries")
    (Some (list_deliveries_params page per_page event_type)).

Definition test (id : string) : prog value :=
  client_post ("/v1/webhooks/" ++ id ++ "/test") None.

Definition call_list (c : call_args) : entry (prog value) :=
  match bind_args list_sig c with
  | inl e => Refused e
  | inr fr => Enters (list (local fr "page") (local fr "per_page"))
  end.

Definition call_get (c : call_args) : entry (prog value) :=
  match bind_args get_sig c with
  | inl e => Refused e
  | inr fr =>
      match local fr "id" with
      | VStr id => Enters (get id)
      | _ => Unannotated
      end
  end.

Definition call_create (c : call_args) : entry (prog value) :=
  match bind_args create_sig c with
  | inl e => Refused e
  | inr fr =>
      Enters (create (local fr "name") (local fr "url") (local fr "events"))
  end.

Definition call_update (c : call_args) : entry (prog value) :=
  match bind_args update_sig c with
  | inl e => Refused e
  | inr fr =>
      match local fr "id" with
      | VStr id =>
          Enters (update id (local fr "name") (local fr "url")
                    (local fr "events") (local fr "is_active"))
      | _ => Unannotated
      end
  end.

Definition call_delete (c : call_args) : entry (prog value) :=
  match bind_args delete_sig c with
  | inl e => Refused e
  | inr fr =>
      match local fr "id" with
      | VStr id => Enters (delete id)
      | _ => Unannotated
      end
  end.

Definition call_list_deliveries (c : call_args) : entry (prog value) :=
  match bind_args list_deliveries_sig c with
  | inl e => Refused e
  | inr fr =>
      match local fr "webhook_id" with
      | VStr id =>
          Enters (list_deliveries id (local fr "page") (local fr "per_page")
                    (local fr "event_type"))
      | _ => Unannotated
      end
  end.

Definition call_test (c : call_args) : entry (prog value) :=
  match bind_args test_sig c with
  | inl e => Refused e
  | inr fr =>
      match local fr "id" with
      | VStr id => Enters (test id)
      | _ => Unannotated
      end
  end.

(** The operations of the resource and the annotation of what each
    returns. *)
Inductive operation :=
| OpList | OpGet | OpCreate | OpUpdate | OpDelete | OpListDeliveries | OpTest.

Definition returns (op : operation) : Types.annotation :=
  match op with
  | OpList => Types.ListResponse (Types.Entity Types.Webhook)
  | OpGet | OpCreate | OpUpdate => Types.ApiResponse (Types.Entity Types.Webhook)
  | OpDelete => Types.ReturnsNone
  | OpListDeliveries => Types.ListResponse (Types.Entity Types.WebhookDelivery)
  | OpTest => Types.ApiResponse (Types.Mapping Types.TStr Types.TStr)
  end.

End Webhooks.

(* ===================================================================== *)
(** ** Vocabulary of the statements                                       *)
(* ===================================================================== *)

Module Contract.
Import Py Transport.

(** What a body or a query is meant to hold for a field: nothing when
    the argument is [None], the argument otherwise. *)
Definition when_set (v : value) : option value :=
  if is_none v then None else Some v.

(** The argument a caller gives for parameter [k] when the keywords of
    the call are [kws]: the keyword's value, [None] when [k] is not
    among them. *)
Definition keyword_or_none (kws : list (string * value)) (k : string) : value :=
  default VNone (list_to_map (M := dict) kws !! k).

(** A method call on [receiver] with positional arguments [pos] and
    keyword arguments [kws]. *)
Definition method_call (receiver : value) (pos : list value)
    (kws : list (string * value)) : call_args :=
  {| c_pos := receiver :: pos; c_kw := kws |}.

(** Every way into a method body of the two resources. *)
Inductive invocation :=
| SRList (page per_page search sort order status priority client_id : value)
| SRGet (id : string)
| SRCreate (title client_id description status source priority
            requested_date preferred_time address contact_name
            contact_email contact_phone notes : value)
| SRUpdate (id : string) (kwargs : dict)
| SRDelete (id : string)
| WHList (page per_page : value)
| WHGet (id : string)
| WHCreate (name url events : value)
| WHUpdate (id : string) (name url events is_active : value)
| WHDelete (id : string)
| WHListDeliveries (webhook_id : string) (page per_page event_type : value)
| WHTest (id : string).

Definition body (i : invocation) : prog value :=
  match i with
  | SRList page per_page search sort order status priority client_id =>
      ServiceRequests.list page per_page search sort order status priority
        client_id
  | SRGet id => ServiceRequests.get id
  | SRCreate title client_id description status source priority
      requested_date preferred_time address contact_name contact_email
      contact_phone notes =>
      ServiceRequests.create title client_id description status source
        priority requested_date preferred_time address contact_name
        contact_email contact_phone notes
  | SRUpdate id kwargs => ServiceRequests.update id kwargs
  | SRDelete id => ServiceRequests.delete id
  | WHList page per_page => Webhooks.list page per_page
  | WHGet id => Webhooks.get id
  | WHCreate name url events => Webhooks.create name url events
  | WHUpdate id name url events is_active =>
      Webhooks.update id name url events is_active
  | WHDelete id => Webhooks.delete id
  | WHListDeliveries webhook_id page per_page event_type =>
      Webhooks.list_deliveries webhook_id page per_page event_type
  | WHTest id => Webhooks.test id
  end.

(** [delete] is annotated [-> None]: its body has no [return]. *)
Definition returns_nothing (i : invocation) : bool :=
  match i with
  | SRDelete _ | WHDelete _ => true
  | _ => false
  end.

(** The wire contract in the words of the specification: the URL
    templates [/v1/{resource}], [/v1/{resource}/{id}],
    [/v1/webhooks/{id}/deliveries], [/v1/webhooks/{id}/test], and the
    verbs GET (list, get), POST (create, test), PUT (update), DELETE
    (delete). *)
Definition collection_url (resource : string) : string :=
  "/v1/" ++ resource.
Definition item_url (resource id : string) : string :=
  "/v1/" ++ resource ++ "/" ++ id.
Definition deliveries_url (id : string) : string :=
  "/v1/webhooks/" ++ id ++ "/deliveries".
Definition test_url (id : string) : string :=
  "/v1/webhooks/" ++ id ++ "/test".

Definition spec_endpoint (i : invocation) : verb * string :=
  match i with
  | SRList _ _ _ _ _ _ _ _ => (GET, collection_url "service-requests")
  | SRGet id => (GET, item_url "service-requests" id)
  | SRCreate _ _ _ _ _ _ _ _ _ _ _ _ _ => (POST, collection_url "service-requests")
  | SRUpdate id _ => (PUT, item_url "service-requests" id)
  | SRDelete id => (DELETE, item_url "service-requests" id)
  | WHList _ _ => (GET, collection_url "webhooks")
  | WHGet id => (GET, item_url "webhooks" id)
  | WHCreate _ _ _ => (POST, collection_url "webhooks")
  | WHUpdate id _ _ _ _ => (PUT, item_url "webhooks" id)
  | WHDelete id => (DELETE, item_url "webhooks" id)
  | WHListDeliveries id _ _ _ => (GET, deliveries_url id)
  | WHTest id => (POST, test_url id)
  end.

(** Two transports to run bodies against: one that answers every request
    with the same decoded value, one that raises on every request. Their
    state is the number of requests served. *)
Definition replying (v : value) : transport nat :=
  λ _ n, (Returned v, S n).
Definition failing (e : failure) : transport nat :=
  λ _ n, (Raised e, S n).

(** The argument a caller gives in position [i] (the receiver not
    counted) when the positional arguments of the call are [pos]:
    [None], the default, when there are fewer. *)
Definition positional_or_none (pos : list value) (i : nat) : value :=
  default VNone (pos !! i).

End Contract.

(* ===================================================================== *)
(** ** Facts about the Python fragment and the transport                  *)
(* ===================================================================== *)

Module Facts.
Import Py Transport Contract.

(** *** Comprehensions *)

Lemma dict_comp_lookup keep (d : dict) k :
  dict_comp keep d !! k =
    match d !! k with
    | Some v => if keep k v then Some v else None
    | None => None
    end.
Proof.
  unfold dict_comp. rewrite map_lookup_filter.
  destruct (d !! k) as [v|]; simpl; [|done].
  by destruct (keep k v).
Qed.

Lemma dict_comp_not_none (d : dict) k :
  dict_comp (λ _ v, negb (is_none v)) d !! k = d !! k ≫= when_set.
Proof.
  rewrite dict_comp_lookup. destruct (d !! k) as [v|]; [|done].
  simpl. unfold when_set. by destruct (is_none v).
Qed.

Lemma dict_comp_empty keep : dict_comp keep ∅ = ∅.
Proof. apply map_filter_empty. Qed.

Lemma when_set_Some v w : when_set v = Some w ↔ v = w ∧ v ≠ VNone.
Proof.
  unfold when_set. split.
  - destruct v; simpl; intros H; by simplify_eq.
  - intros [-> Hne]. by destruct w.
Qed.

(** *** Running a body *)

Section run.
Context {St : Type} (t : transport St).

Lemma run_call (r : request) (s : St) :
  run t (Call r Ret) s =
    {| o_outcome := (t r s).1; o_state := (t r s).2; o_requests := [r] |}.
Proof. simpl. by destruct (t r s) as [[v|e] s']. Qed.

Lemma run_call_discard (r : request) (s : St) :
  run t (_ ← Call r Ret; mret VNone) s =
    {| o_outcome := match (t r s).1 with
                    | Returned _ => Returned VNone
                    | Raised e => Raised e
                    end;
       o_state := (t r s).2; o_requests := [r] |}.
Proof. simpl. by destruct (t r s) as [[v|e] s']. Qed.

End run.

(** *** Binding the arguments of a call *)

(** Keywords that are parameters without a value yet, or that [**kwargs]
    takes, are all accepted. *)
Lemma bind_keywords_accepts names varkw kws fr :
  NoDup kws.*1 →
  (∀ k, k ∈ kws.*1 →
     if decide (k ∈ names) then f_locals fr !! k = None
     else varkw = true ∧ f_kwargs fr !! k = None) →
  bind_keywords names varkw kws fr
  = inr {| f_locals :=
             list_to_map (filter (λ kv, kv.1 ∈ names) kws) ∪ f_locals fr;
           f_kwargs :=
             list_to_map (filter (λ kv, kv.1 ∉ names) kws) ∪ f_kwargs fr |}.
Proof.
  revert fr. induction kws as [|[k v] kws IH]; intros [loc kw] Hnd Hok.
  { simpl. by rewrite !(left_id_L ∅ (∪)). }
  apply NoDup_cons in Hnd as [Hk Hnd]. simpl in Hk.
  assert (Hrest : ∀ k', k' ∈ kws.*1 → k' ≠ k) by (intros k' ? ->; done).
  pose proof (Hok k (list_elem_of_here _ _)) as Hhead.
  cbn [bind_keywords f_locals f_kwargs] in *.
  rewrite !filter_cons. cbn [fst].
  destruct (decide (k ∈ names)) as [Hin|Hin].
  - rewrite Hhead, IH; [|done|]; cbn [f_locals f_kwargs].
    + rewrite decide_False by (intros Hn; by apply Hn).
      f_equal. f_equal. cbn [list_to_map foldr uncurry fst snd].
      rewrite <-insert_union_l, <-insert_union_r; [done|].
      apply not_elem_of_list_to_map_1. intros Hf.
      apply list_elem_of_fmap in Hf as [[k' v'] [-> Hf]].
      apply list_elem_of_filter in Hf as [_ Hf]. apply Hk.
      apply list_elem_of_fmap. by exists (k', v').
    + intros k' Hk'. specialize (Hok k' (list_elem_of_further _ _ _ Hk')).
      destruct (decide (k' ∈ names)); [|done].
      rewrite lookup_insert_ne; [done|]. intros ->. by apply (Hrest k').
  - destruct Hhead as [-> Hhead]. rewrite Hhead, IH; [|done|]; cbn [f_locals f_kwargs].
    + rewrite decide_True by done.
      f_equal. f_equal. cbn [list_to_map foldr uncurry fst snd].
      rewrite <-insert_union_l, <-insert_union_r; [done|].
      apply not_elem_of_list_to_map_1. intros Hf.
      apply list_elem_of_fmap in Hf as [[k' v'] [-> Hf]].
      apply list_elem_of_filter in Hf as [_ Hf]. apply Hk.
      apply list_elem_of_fmap. by exists (k', v').
    + intros k' Hk'. specialize (Hok k' (list_elem_of_further _ _ _ Hk')).
      destruct (decide (k' ∈ names)); [done|].
      destruct Hok as [? Hok]. split; [done|].
      rewrite lookup_insert_ne; [done|]. intros ->. by apply (Hrest k').
Qed.


(** Parameters without a value take their default. *)
Lemma bind_defaults_total ps (m : dict) :
  (∀ p, (p, None) ∈ ps → is_Some (m !! p)) →
  bind_defaults ps m = inr (m ∪ omap id (list_to_map ps)).
Proof.
  revert m. induction ps as [|[p d] ps IH]; intros m Hreq.
  { simpl. by rewrite omap_empty, (right_id_L ∅ (∪)). }
  cbn [bind_defaults list_to_map foldr uncurry fst snd].
  destruct (m !! p) as [x|] eqn:Hp.
  - rewrite IH by (intros q Hq; apply Hreq; by right).
    f_equal. apply map_eq. intros q. rewrite !lookup_union, !lookup_omap.
    destruct (decide (q = p)) as [->|Hne].
    + rewrite Hp, lookup_insert_eq.
      by destruct (_ !! p ≫= id), d.
    + by rewrite lookup_insert_ne.
  - destruct d as [v|].
    + rewrite IH.
      * f_equal. apply map_eq. intros q. rewrite !lookup_union, !lookup_omap.
        destruct (decide (q = p)) as [->|Hne].
        -- rewrite Hp, !lookup_insert_eq.
           by destruct (_ !! p ≫= id).
        -- by rewrite !lookup_insert_ne.
      * intros q Hq. destruct (decide (q = p)) as [->|Hne].
        -- rewrite lookup_insert_eq. by eexists.
        -- rewrite lookup_insert_ne by done. apply Hreq. by right.
    + destruct (Hreq p) as [x Hx]; [by left|]. congruence.
Qed.

(** The keywords that name parameters, and those that do not. *)
Lemma named_keys (names : list string) (kws : list (string * value)) k :
  k ∈ (filter (λ kv, kv.1 ∈ names) kws).*1 ↔ k ∈ kws.*1 ∧ k ∈ names.
Proof.
  rewrite !list_elem_of_fmap. split.
  - intros [[k' v'] [-> [Hn Hin]%list_elem_of_filter]].
    split; [by exists (k', v')|done].
  - intros [[[k' v'] [-> Hin]] Hn]. exists (k', v'). split; [done|].
    by apply list_elem_of_filter.
Qed.

Lemma named_lookup (names : list string) (kws : list (string * value)) k :
  k ∈ names →
  list_to_map (M := dict) (filter (λ kv, kv.1 ∈ names) kws) !! k
  = list_to_map (M := dict) kws !! k.
Proof.
  intros Hk. induction kws as [|[k' v] kws IH]; [done|].
  rewrite filter_cons. cbn [fst list_to_map foldr uncurry snd].
  destruct (decide (k' = k)) as [->|Hne].
  - rewrite decide_True by done. cbn [list_to_map foldr uncurry fst snd].
    by rewrite !lookup_insert_eq.
  - rewrite lookup_insert_ne by done. case_decide; [|done].
    cbn [list_to_map foldr uncurry fst snd]. by rewrite lookup_insert_ne.
Qed.

Lemma named_absent (names : list string) (kws : list (string * value)) k :
  k ∉ kws.*1 →
  list_to_map (M := dict) (filter (λ kv, kv.1 ∈ names) kws) !! k = None.
Proof.
  intros Hk. apply not_elem_of_list_to_map_1.
  rewrite named_keys. by intros [? _].
Qed.

Lemma unnamed_all (names : list string) (kws : list (string * value)) :
  (∀ k, k ∈ kws.*1 → k ∉ names) →
  filter (λ kv, kv.1 ∉ names) kws = kws.
Proof.
  intros Hall. induction kws as [|[k v] kws IH]; [done|].
  rewrite filter_cons, decide_True by (apply Hall; by left).
  f_equal. apply IH. intros k' ?. apply Hall. by right.
Qed.

(** Taking one keyword out of the keywords of a call. *)
Lemma NoDup_keys_drop (kws1 kws2 : list (string * value)) k v :
  NoDup (kws1 ++ (k, v) :: kws2)%list.*1 →
  NoDup (kws1 ++ kws2)%list.*1 ∧ k ∉ (kws1 ++ kws2)%list.*1.
Proof.
  rewrite !fmap_app, fmap_cons. cbn [fst].
  intros Hnd. apply NoDup_app in Hnd as (H1 & H12 & H2).
  apply NoDup_cons in H2 as [Hk H2]. split.
  - apply NoDup_app. split; [done|]. split; [|done].
    intros x Hx Hx2. apply (H12 x Hx). by right.
  - rewrite elem_of_app. intros [Hin|Hin]; [|done].
    apply (H12 k Hin). by left.
Qed.


Lemma keys_drop_subseteq (kws1 kws2 : list (string * value)) k v :
  (kws1 ++ kws2)%list.*1 ⊆ (kws1 ++ (k, v) :: kws2)%list.*1.
Proof.
  intros q. rewrite !fmap_app, fmap_cons, !elem_of_app, elem_of_cons. tauto.
Qed.

End Facts.

(* ===================================================================== *)
(** ** Calls of the methods, through the binding of their arguments       *)
(* ===================================================================== *)

Module CallFacts.
Import Py Transport Contract Facts.

(** After binding, a parameter that the positional arguments left
    without a value holds its keyword, or else its default. *)
Lemma local_keyword (names : list string) kws (L D : dict) k d :
  k ∈ names → L !! k = None → D !! k = Some d →
  default VNone
    ((list_to_map (filter (λ kv, kv.1 ∈ names) kws) ∪ L ∪ D) !! k)
  = default d (list_to_map (M := dict) kws !! k).
Proof.
  intros Hk HL HD.
  rewrite !lookup_union, named_lookup, HL, HD by done.
  by destruct (list_to_map kws !! k).
Qed.

(** A parameter filled by a positional argument keeps it. *)
Lemma local_positional (names : list string) kws (L D : dict) k v :
  k ∉ kws.*1 → L !! k = Some v →
  default VNone
    ((list_to_map (filter (λ kv, kv.1 ∈ names) kws) ∪ L ∪ D) !! k) = v.
Proof.
  intros Hk HL.
  rewrite !lookup_union, named_absent, HL by done. by destruct (D !! k).
Qed.

(** Case analysis on a keyword known to be one of finitely many names. *)
Ltac keyword_cases H :=
  unfold required, optional in H;
  repeat (apply elem_of_cons in H as [?|H]; [simplify_eq|]);
  try (by apply elem_of_nil in H).

Ltac closed :=
  solve [ vm_compute; done | apply (bool_decide_unpack _); vm_compute; done ].

(** The common part of every proof that a call enters the body: the
    keywords are accepted, then the defaults are filled in. [Hsub] is the
    hypothesis that bounds the keywords of the call. *)
Ltac bind_accepted Hsub :=
  unfold bind_args, method_call;
  cbn [c_pos c_kw sig_params sig_varkw bind_positional];
  unfold required, optional; cbn [bind_positional];
  rewrite bind_keywords_accepts;
    [| done
     | let k := fresh "k" in let Hk := fresh "Hk" in
       intros k Hk; apply Hsub in Hk; keyword_cases Hk; closed ];
  cbn [f_locals f_kwargs];
  rewrite bind_defaults_total;
    [| let p := fresh "p" in let Hp := fresh "Hp" in let Hin := fresh "Hin" in
       intros p Hp; keyword_cases Hp;
       (rewrite lookup_union_r;
          [ by simplify_map_eq
          | apply named_absent; intros Hin; apply Hsub in Hin;
            keyword_cases Hin ]) ];
  unfold local, keyword_or_none; cbn [f_locals f_kwargs].

Ltac positional_local Hsub k v :=
  rewrite (local_positional _ _ _ _ k v);
    [| let Hin := fresh "Hin" in
       intros Hin; apply Hsub in Hin; keyword_cases Hin
     | by simplify_map_eq ].

Lemma sr_call_list_accepts kws :
  NoDup kws.*1 →
  kws.*1 ⊆ ["page"; "per_page"; "search"; "sort"; "order"; "status";
            "priority"; "client_id"] →
  ServiceRequests.call_list (method_call ServiceRequests.self [] kws)
  = Enters (ServiceRequests.list
              (keyword_or_none kws "page") (keyword_or_none kws "per_page")
              (keyword_or_none kws "search") (keyword_or_none kws "sort")
              (keyword_or_none kws "order") (keyword_or_none kws "status")
              (keyword_or_none kws "priority")
              (keyword_or_none kws "client_id")).
Proof.
  intros Hnd Hsub. unfold ServiceRequests.call_list, ServiceRequests.list_sig.
  bind_accepted Hsub.
  by rewrite !(local_keyword _ kws _ _ _ VNone) by closed.
Qed.

Lemma wh_call_list_accepts kws :
  NoDup kws.*1 →
  kws.*1 ⊆ ["page"; "per_page"] →
  Webhooks.call_list (method_call Webhooks.self [] kws)
  = Enters (Webhooks.list
              (keyword_or_none kws "page") (keyword_or_none kws "per_page")).
Proof.
  intros Hnd Hsub. unfold Webhooks.call_list, Webhooks.list_sig.
  bind_accepted Hsub.
  by rewrite !(local_keyword _ kws _ _ _ VNone) by closed.
Qed.

Lemma wh_call_list_deliveries_accepts webhook_id kws :
  NoDup kws.*1 →
  kws.*1 ⊆ ["page"; "per_page"; "event_type"] →
  Webhooks.call_list_deliveries
    (method_call Webhooks.self [VStr webhook_id] kws)
  = Enters (Webhooks.list_deliveries webhook_id
              (keyword_or_none kws "page") (keyword_or_none kws "per_page")
              (keyword_or_none kws "event_type")).
Proof.
  intros Hnd Hsub.
  unfold Webhooks.call_list_deliveries, Webhooks.list_deliveries_sig.
  bind_accepted Hsub. positional_local Hsub "webhook_id" (VStr webhook_id).
  by rewrite !(local_keyword _ kws _ _ _ VNone) by closed.
Qed.

Lemma wh_call_update_accepts id kws :
  NoDup kws.*1 →
  kws.*1 ⊆ ["name"; "url"; "events"; "is_active"] →
  Webhooks.call_update (method_call Webhooks.self [VStr id] kws)
  = Enters (Webhooks.update id
              (keyword_or_none kws "name") (keyword_or_none kws "url")
              (keyword_or_none kws "events")
              (keyword_or_none kws "is_active")).
Proof.
  intros Hnd Hsub. unfold Webhooks.call_update, Webhooks.update_sig.
  bind_accepted Hsub. positional_local Hsub "id" (VStr id).
  by rewrite !(local_keyword _ kws _ _ _ VNone) by closed.
Qed.

(** [**kwargs] of [update] takes every keyword but [self] and [id]. *)
Lemma sr_call_update_accepts id kws :
  NoDup kws.*1 →
  "self" ∉ kws.*1 → "id" ∉ kws.*1 →
  ServiceRequests.call_update
    (method_call ServiceRequests.self [VStr id] kws)
  = Enters (ServiceRequests.update id (list_to_map kws)).
Proof.
  intros Hnd Hself Hid.
  assert (Hout : ∀ k, k ∈ kws.*1 → k ∉ ["self"; "id"]).
  { intros k Hk Hin. keyword_cases Hin; done. }
  unfold ServiceRequests.call_update, ServiceRequests.update_sig,
    bind_args, method_call.
  cbn [c_pos c_kw sig_params sig_varkw bind_positional].
  unfold required. cbn [bind_positional fmap list_fmap fst].
  rewrite bind_keywords_accepts; [|done|].
  - cbn [f_locals f_kwargs]. rewrite bind_defaults_total.
    + unfold local. cbn [f_locals f_kwargs].
      rewrite (local_positional _ _ _ _ "id" (VStr id));
        [|done|by simplify_map_eq].
      by rewrite unnamed_all, (right_id_L ∅ (∪)).
    + intros p Hp. keyword_cases Hp.
      all: rewrite lookup_union_r; [by simplify_map_eq|by apply named_absent].
  - intros k Hk. cbn [f_locals f_kwargs].
    rewrite decide_False by by apply Hout. by rewrite lookup_empty.
Qed.

(** A keyword [id] is the parameter [id]: it selects the URL and stays
    out of [**kwargs]. *)
Lemma sr_call_update_id_keyword id (kws1 kws2 : list (string * value)) :
  NoDup (kws1 ++ ("id", VStr id) :: kws2)%list.*1 →
  "self" ∉ (kws1 ++ kws2)%list.*1 →
  ServiceRequests.call_update
    (method_call ServiceRequests.self [] (kws1 ++ ("id", VStr id) :: kws2)%list)
  = Enters (ServiceRequests.update id (list_to_map (kws1 ++ kws2)%list)).
Proof.
  intros Hnd Hself. pose proof (NoDup_keys_drop _ _ _ _ Hnd) as [Hnd' Hid].
  set (kws := (kws1 ++ ("id", VStr id) :: kws2)%list) in *.
  assert (Hkws : ∀ k, k ∈ kws.*1 → k = "id" ∨ k ∈ (kws1 ++ kws2)%list.*1).
  { intros k. unfold kws. rewrite !fmap_app, fmap_cons, !elem_of_app, elem_of_cons.
    cbn [fst]. tauto. }
  assert (Hin : ("id", VStr id) ∈ kws).
  { unfold kws. rewrite elem_of_app, elem_of_cons. auto. }
  unfold ServiceRequests.call_update, ServiceRequests.update_sig,
    bind_args, method_call.
  cbn [c_pos c_kw sig_params sig_varkw bind_positional].
  unfold required. cbn [bind_positional fmap list_fmap fst].
  rewrite bind_keywords_accepts; [|done|].
  - cbn [f_locals f_kwargs]. rewrite bind_defaults_total.
    + unfold local. cbn [f_locals f_kwargs].
      rewrite !lookup_union, named_lookup by closed.
      rewrite (elem_of_list_to_map_1 _ _ _ Hnd Hin). cbn.
      f_equal. f_equal. rewrite (right_id_L ∅ (∪)). f_equal.
      unfold kws. rewrite filter_app, filter_cons, decide_False.
      * rewrite <-filter_app. apply unnamed_all.
        intros k Hk Hn. keyword_cases Hn; done.
      * cbn [fst]. intros Hn. apply Hn. closed.
    + intros p Hp. keyword_cases Hp.
      * rewrite lookup_union_r; [by simplify_map_eq|].
        apply named_absent. intros [?|?]%Hkws; done.
      * rewrite lookup_union_l'; rewrite named_lookup by closed;
          by rewrite (elem_of_list_to_map_1 _ _ _ Hnd Hin).
  - intros k Hk. cbn [f_locals f_kwargs].
    destruct (Hkws k Hk) as [->|Hk'].
    + rewrite decide_True by closed. by simplify_map_eq.
    + rewrite decide_False; [by rewrite lookup_empty|].
      intros Hn. keyword_cases Hn; done.
Qed.

(** Without [**kwargs], one keyword that names no parameter is enough
    for the call to be refused. *)
Lemma bind_keywords_refuses names kws fr k :
  k ∈ kws.*1 → k ∉ names →
  ∃ e, bind_keywords names false kws fr = inl e.
Proof.
  revert fr. induction kws as [|[k' v] kws IH]; intros fr Hk Hn.
  { by apply elem_of_nil in Hk. }
  cbn [bind_keywords]. destruct (decide (k' ∈ names)) as [Hin|Hin].
  - destruct (f_locals fr !! k'); [by eexists|].
    apply IH; [|done]. apply elem_of_cons in Hk as [->|Hk]; done.
  - by eexists.
Qed.

Lemma bind_args_refuses sg c k :
  sig_varkw sg = false →
  k ∈ (c_kw c).*1 → k ∉ (sig_params sg).*1 →
  ∃ e, bind_args sg c = inl e.
Proof.
  intros Hkw Hk Hn. unfold bind_args.
  destruct (bind_positional _ _ _) as [e|locals]; [by eexists|].
  rewrite Hkw.
  destruct (bind_keywords_refuses (sig_params sg).*1 (c_kw c)
              {| f_locals := locals; f_kwargs := ∅ |} k Hk Hn) as [e ->].
  by eexists.
Qed.

End CallFacts.

(* ===================================================================== *)
(** ** Request bodies of [create] and [update]                            *)
(* ===================================================================== *)

Import Py Transport Contract Facts CallFacts.

(** Looking a constant key up in a dictionary display. *)
Ltac lookup_display :=
  unfold dict_display; cbn [foldl fst snd]; simplify_map_eq; try done.

Lemma sr_create_sends St (t : transport St) s
    title client_id description status source priority requested_date
    preferred_time address contact_name contact_email contact_phone notes :
  o_requests
    (run t (ServiceRequests.create title client_id description status
              source priority requested_date preferred_time address
              contact_name contact_email contact_phone notes) s)
  = [ {| r_verb := POST; r_path := "/v1/service-requests";
         r_params := None;
         r_json := Some (ServiceRequests.create_data title client_id
                           description status source priority
                           requested_date preferred_time address
                           contact_name contact_email contact_phone
                           notes) |} ].
Proof. unfold ServiceRequests.create, client_post. by rewrite run_call. Qed.

Lemma sr_update_sends St (t : transport St) s id kwargs :
  o_requests (run t (ServiceRequests.update id kwargs) s)
  = [ {| r_verb := PUT; r_path := "/v1/service-requests/" ++ id;
         r_params := None;
         r_json := Some (ServiceRequests.update_data kwargs) |} ].
Proof. unfold ServiceRequests.update, client_put. by rewrite run_call. Qed.

Lemma wh_create_sends St (t : transport St) s name url events :
  o_requests (run t (Webhooks.create name url events) s)
  = [ {| r_verb := POST; r_path := "/v1/webhooks"; r_params := None;
         r_json := Some (Webhooks.create_data name url events) |} ].
Proof. unfold Webhooks.create, client_post. by rewrite run_call. Qed.

Lemma wh_update_sends St (t : transport St) s id name url events is_active :
  o_requests (run t (Webhooks.update id name url events is_active) s)
  = [ {| r_verb := PUT; r_path := "/v1/webhooks/" ++ id; r_params := None;
         r_json := Some (Webhooks.update_data name url events is_active) |} ].
Proof. unfold Webhooks.update, client_put. by rewrite run_call. Qed.

Lemma sr_update_data_lookup kwargs k :
  ServiceRequests.update_data kwargs !! k = kwargs !! k ≫= when_set.
Proof. apply dict_comp_not_none. Qed.

Lemma sr_update_data_none kwargs k :
  ServiceRequests.update_data (<[k := VNone]> kwargs)
  = ServiceRequests.update_data (delete k kwargs).
Proof.
  apply map_eq. intros q. rewrite !sr_update_data_lookup.
  destruct (decide (q = k)) as [->|Hne].
  - by rewrite lookup_insert_eq, lookup_delete_eq.
  - by rewrite lookup_insert_ne, lookup_delete_ne.
Qed.

Lemma wh_update_data_lookup name url events is_active k :
  Webhooks.update_data name url events is_active !! k
  = Webhooks.update_fields name url events is_active !! k ≫= when_set.
Proof. apply dict_comp_not_none. Qed.

(** Taking a [None] keyword out of a call. *)
Lemma keyword_or_none_drop_none (kws1 kws2 : list (string * value)) k q :
  k ∉ (kws1 ++ kws2)%list.*1 →
  keyword_or_none (kws1 ++ (k, VNone) :: kws2)%list q
  = keyword_or_none (kws1 ++ kws2)%list q.
Proof.
  intros Hk. unfold keyword_or_none. rewrite !list_to_map_app, !lookup_union.
  cbn [list_to_map foldr uncurry fst snd].
  destruct (decide (q = k)) as [->|Hne]; [|by rewrite lookup_insert_ne].
  rewrite fmap_app, elem_of_app in Hk.
  rewrite lookup_insert_eq, !(not_elem_of_list_to_map_1 _ k); [done|..];
    intros ?; apply Hk; auto.
Qed.

Lemma sr_update_data_drop_none (kws1 kws2 : list (string * value)) k :
  k ∉ (kws1 ++ kws2)%list.*1 →
  ServiceRequests.update_data (list_to_map (kws1 ++ (k, VNone) :: kws2)%list)
  = ServiceRequests.update_data (list_to_map (kws1 ++ kws2)%list).
Proof.
  intros Hk. apply map_eq. intros q. rewrite !sr_update_data_lookup.
  rewrite !list_to_map_app, !lookup_union.
  cbn [list_to_map foldr uncurry fst snd].
  destruct (decide (q = k)) as [->|Hne]; [|by rewrite lookup_insert_ne].
  rewrite fmap_app, elem_of_app in Hk.
  rewrite lookup_insert_eq, !(not_elem_of_list_to_map_1 _ k); [done|..];
    intros ?; apply Hk; auto.
Qed.

(** The docstring example and the scenarios of the specification. *)
Example sr_create_scenario :
  ServiceRequests.create_data (VStr "AC Not Cooling") VNone VNone VNone VNone
    (VStr "urgent") VNone VNone VNone (VStr "John Doe") VNone VNone VNone
  = {[ "title" := VStr "AC Not Cooling"; "contact_name" := VStr "John Doe";
       "priority" := VStr "urgent" ]}.
Proof. vm_compute; reflexivity. Qed.

Example sr_create_empty_title :
  ServiceRequests.create_data (VStr "") VNone VNone VNone VNone VNone VNone
    VNone VNone VNone VNone VNone VNone
  = {[ "title" := VStr "" ]}.
Proof. vm_compute; reflexivity. Qed.

Example sr_update_scenario :
  ServiceRequests.call_update
    (method_call ServiceRequests.self []
       [("id", VStr "sr_1"); ("status", VStr "scheduled")])
  = Enters (ServiceRequests.update "sr_1" {[ "status" := VStr "scheduled" ]})
  ∧ ServiceRequests.update_data {[ "status" := VStr "scheduled" ]}
    = {[ "status" := VStr "scheduled" ]}.
Proof. split; vm_compute; reflexivity. Qed.

(** C1. [create] always sends its required fields, whatever their value
    (the empty string and [None] included), and sends an optional field
    exactly when its argument is not [None]: for service requests the
    body holds [title] and, of the twelve optional fields, those that are
    set; for webhooks it holds exactly [name], [url] and [events]. *)
Theorem create_required_present_optional_absent :
  (∀ title client_id description status source priority requested_date
     preferred_time address contact_name contact_email contact_phone notes,
     let body :=
       ServiceRequests.create_data title client_id description status source
         priority requested_date preferred_time address contact_name
         contact_email contact_phone notes in
     (∀ St (t : transport St) s,
        o_requests
          (run t (ServiceRequests.create title client_id description status
                    source priority requested_date preferred_time address
                    contact_name contact_email contact_phone notes) s)
        = [ {| r_verb := POST; r_path := "/v1/service-requests";
               r_params := None; r_json := Some body |} ]) ∧
     body !! "title" = Some title ∧
     body !! "client_id" = when_set client_id ∧
     body !! "description" = when_set description ∧
     body !! "status" = when_set status ∧
     body !! "source" = when_set source ∧
     body !! "priority" = when_set priority ∧
     body !! "requested_date" = when_set requested_date ∧
     body !! "preferred_time" = when_set preferred_time ∧
     body !! "address" = when_set address ∧
     body !! "contact_name" = when_set contact_name ∧
     body !! "contact_email" = when_set contact_email ∧
     body !! "contact_phone" = when_set contact_phone ∧
     body !! "notes" = when_set notes) ∧
  (∀ name url events,
     let body := Webhooks.create_data name url events in
     (∀ St (t : transport St) s,
        o_requests (run t (Webhooks.create name url events) s)
        = [ {| r_verb := POST; r_path := "/v1/webhooks";
               r_params := None; r_json := Some body |} ]) ∧
     body !! "name" = Some name ∧
     body !! "url" = Some url ∧
     body !! "events" = Some events ∧
     dom body = {[ "name"; "url"; "events" ]}).
Proof.
  split.
  - intros; repeat match goal with x := _ |- _ => subst x end.
    split; [intros; apply sr_create_sends|].
    unfold ServiceRequests.create_data, ServiceRequests.create_fields.
    rewrite !dict_comp_lookup. unfold when_set, ServiceRequests.create_keeps.
    repeat split.
    all: lookup_display.
    all: match goal with |- context [is_none ?v] => by destruct (is_none v) end.
  - intros; repeat match goal with x := _ |- _ => subst x end.
    split; [intros; apply wh_create_sends|].
    unfold Webhooks.create_data. repeat split; lookup_display.
Qed.

(** C2. [update] sends exactly the fields given a value other than
    [None], each with that value. For service requests the body is the
    keyword dictionary without its [None] entries, so an entry [k=None]
    changes nothing; for webhooks each of [name], [url], [events],
    [is_active] is in the body exactly when set, and nothing else is. For
    both, a keyword passed as [None], wherever it stands among the
    keywords, gives the same call as that keyword left out.
    [update(id="sr_1", status="scheduled")] sends a PUT to
    [/v1/service-requests/sr_1] whose body is exactly
    [{"status": "scheduled"}]. *)
Theorem update_sends_only_set_fields :
  (∀ id kwargs,
     (∀ St (t : transport St) s,
        o_requests (run t (ServiceRequests.update id kwargs) s)
        = [ {| r_verb := PUT; r_path := "/v1/service-requests/" ++ id;
               r_params := None;
               r_json := Some (ServiceRequests.update_data kwargs) |} ]) ∧
     (∀ k, ServiceRequests.update_data kwargs !! k = kwargs !! k ≫= when_set) ∧
     (∀ k, ServiceRequests.update id (<[k := VNone]> kwargs)
           = ServiceRequests.update id (delete k kwargs))) ∧
  (∀ id name url events is_active,
     let body := Webhooks.update_data name url events is_active in
     (∀ St (t : transport St) s,
        o_requests (run t (Webhooks.update id name url events is_active) s)
        = [ {| r_verb := PUT; r_path := "/v1/webhooks/" ++ id;
               r_params := None; r_json := Some body |} ]) ∧
     body !! "name" = when_set name ∧
     body !! "url" = when_set url ∧
     body !! "events" = when_set events ∧
     body !! "is_active" = when_set is_active ∧
     dom body ⊆ {[ "name"; "url"; "events"; "is_active" ]}) ∧
  (∀ id (kws1 kws2 : list (string * value)) k,
     let passed := (kws1 ++ (k, VNone) :: kws2)%list in
     let left_out := (kws1 ++ kws2)%list in
     NoDup passed.*1 →
     passed.*1 ⊆ ["name"; "url"; "events"; "is_active"] →
     Webhooks.call_update (method_call Webhooks.self [VStr id] passed)
     = Webhooks.call_update (method_call Webhooks.self [VStr id] left_out)) ∧
  (∀ id (kws1 kws2 : list (string * value)) k,
     let passed := (kws1 ++ (k, VNone) :: kws2)%list in
     let left_out := (kws1 ++ kws2)%list in
     NoDup passed.*1 →
     "self" ∉ passed.*1 → "id" ∉ passed.*1 →
     ServiceRequests.call_update
       (method_call ServiceRequests.self [VStr id] passed)
     = ServiceRequests.call_update
         (method_call ServiceRequests.self [VStr id] left_out)) ∧
  (∀ St (t : transport St) s,
     ∃ p, ServiceRequests.call_update
            (method_call ServiceRequests.self []
               [("id", VStr "sr_1"); ("status", VStr "scheduled")])
          = Enters p ∧
          o_requests (run t p s)
          = [ {| r_verb := PUT; r_path := "/v1/service-requests/sr_1";
                 r_params := None;
                 r_json := Some {[ "status" := VStr "scheduled" ]} |} ]).
Proof.
  repeat apply conj.
  - intros id kwargs. repeat apply conj.
    + intros. apply sr_update_sends.
    + apply sr_update_data_lookup.
    + intros k. unfold ServiceRequests.update. by rewrite sr_update_data_none.
  - intros id name url events is_active body. subst body. repeat apply conj.
    + intros. apply wh_update_sends.
    + rewrite wh_update_data_lookup. unfold Webhooks.update_fields. by lookup_display.
    + rewrite wh_update_data_lookup. unfold Webhooks.update_fields. by lookup_display.
    + rewrite wh_update_data_lookup. unfold Webhooks.update_fields. by lookup_display.
    + rewrite wh_update_data_lookup. unfold Webhooks.update_fields. by lookup_display.
    + etrans; [apply dom_filter_subseteq|].
      by replace (dom (Webhooks.update_fields name url events is_active))
        with ({[ "name"; "url"; "events"; "is_active" ]} : gset string)
        by (vm_compute; reflexivity).
  - intros id kws1 kws2 k passed left_out Hnd Hsub.
    destruct (NoDup_keys_drop _ _ _ _ Hnd) as [Hnd' Hk].
    assert (Hleft : left_out.*1 ⊆ passed.*1) by apply keys_drop_subseteq.
    rewrite (wh_call_update_accepts id passed) by done.
    rewrite (wh_call_update_accepts id left_out);
      [|done|by etrans].
    unfold passed, left_out. by rewrite !keyword_or_none_drop_none.
  - intros id kws1 kws2 k passed left_out Hnd Hself Hid.
    destruct (NoDup_keys_drop _ _ _ _ Hnd) as [Hnd' Hk].
    assert (Hleft : left_out.*1 ⊆ passed.*1) by apply keys_drop_subseteq.
    rewrite (sr_call_update_accepts id passed) by done.
    rewrite (sr_call_update_accepts id left_out);
      [|done|intros Hq; by apply Hself, Hleft|intros Hq; by apply Hid, Hleft].
    unfold ServiceRequests.update, passed, left_out.
    by rewrite sr_update_data_drop_none.
  - intros St t s. eexists. split; [by apply sr_update_scenario|].
    rewrite sr_update_sends. vm_compute. reflexivity.
Qed.

(** A call the hypotheses of C2 cover: [update("wh_1", name=None,
    url="https://x")] against [update("wh_1", url="https://x")], and the
    same with [title=None] for a service request. *)
Lemma update_sends_only_set_fields_witness :
  Webhooks.call_update
    (method_call Webhooks.self [VStr "wh_1"]
       [("name", VNone); ("url", VStr "https://x")])
  = Webhooks.call_update
      (method_call Webhooks.self [VStr "wh_1"] [("url", VStr "https://x")])
  ∧ ServiceRequests.call_update
      (method_call ServiceRequests.self [VStr "sr_1"]
         [("title", VNone); ("status", VStr "scheduled")])
    = ServiceRequests.call_update
        (method_call ServiceRequests.self [VStr "sr_1"]
           [("status", VStr "scheduled")]).
Proof.
  destruct update_sends_only_set_fields as (_ & _ & Hwh & Hsr & _).
  split.
  - apply (Hwh "wh_1" [] [("url", VStr "https://x")] "name").
    + apply (bool_decide_unpack _). vm_compute. reflexivity.
    + apply (bool_decide_unpack _). vm_compute. reflexivity.
  - apply (Hsr "sr_1" [] [("status", VStr "scheduled")] "title").
    + apply (bool_decide_unpack _). vm_compute. reflexivity.
    + apply (bool_decide_unpack _). vm_compute. reflexivity.
    + apply (bool_decide_unpack _). vm_compute. reflexivity.
Defined.

(** C10. An [update] with nothing to change still goes to the transport:
    with no keyword, or with every field [None], the method issues one
    PUT whose [json] is the empty dictionary. *)
Theorem update_without_fields_sends_empty_body :
  (∀ id St (t : transport St) s,
     ServiceRequests.call_update (method_call ServiceRequests.self [VStr id] [])
     = Enters (ServiceRequests.update id ∅) ∧
     o_requests (run t (ServiceRequests.update id ∅) s)
     = [ {| r_verb := PUT; r_path := "/v1/service-requests/" ++ id;
            r_params := None; r_json := Some ∅ |} ]) ∧
  (∀ id (fields : gset string) St (t : transport St) s,
     o_requests
       (run t (ServiceRequests.update id (gset_to_gmap VNone fields)) s)
     = [ {| r_verb := PUT; r_path := "/v1/service-requests/" ++ id;
            r_params := None; r_json := Some ∅ |} ]) ∧
  (∀ id St (t : transport St) s,
     Webhooks.call_update (method_call Webhooks.self [VStr id] [])
     = Enters (Webhooks.update id VNone VNone VNone VNone) ∧
     o_requests (run t (Webhooks.update id VNone VNone VNone VNone) s)
     = [ {| r_verb := PUT; r_path := "/v1/webhooks/" ++ id;
            r_params := None; r_json := Some ∅ |} ]).
Proof.
  repeat apply conj.
  - intros id St t s. split.
    + rewrite sr_call_update_accepts; [done|constructor|..];
        by intros ?%elem_of_nil.
    + rewrite sr_update_sends. unfold ServiceRequests.update_data.
      by rewrite dict_comp_empty.
  - intros id fields St t s. rewrite sr_update_sends.
    replace (ServiceRequests.update_data (gset_to_gmap VNone fields))
      with (∅ : dict); [done|]. symmetry.
    apply map_eq. intros k. rewrite sr_update_data_lookup, lookup_empty.
    rewrite lookup_gset_to_gmap. by case_guard.
  - intros id St t s. split.
    + rewrite wh_call_update_accepts; [done|constructor|].
      by intros k ?%elem_of_nil.
    + rewrite wh_update_sends.
      by replace (Webhooks.update_data VNone VNone VNone VNone)
        with (∅ : dict) by (vm_compute; reflexivity).
Qed.

(* ===================================================================== *)
(** ** Query parameters of [list] and [list_deliveries]                   *)
(* ===================================================================== *)

Lemma sr_list_sends St (t : transport St) s
    page per_page search sort order status priority client_id :
  o_requests
    (run t (ServiceRequests.list page per_page search sort order status
              priority client_id) s)
  = [ {| r_verb := GET; r_path := "/v1/service-requests";
         r_params := Some (ServiceRequests.list_params page per_page search
                             sort order status priority client_id);
         r_json := None |} ].
Proof. unfold ServiceRequests.list, client_get. by rewrite run_call. Qed.

Lemma wh_list_sends St (t : transport St) s page per_page :
  o_requests (run t (Webhooks.list page per_page) s)
  = [ {| r_verb := GET; r_path := "/v1/webhooks";
         r_params := Some (Webhooks.list_params page per_page);
         r_json := None |} ].
Proof. unfold Webhooks.list, client_get. by rewrite run_call. Qed.

Lemma wh_list_deliveries_sends St (t : transport St) s
    webhook_id page per_page event_type :
  o_requests
    (run t (Webhooks.list_deliveries webhook_id page per_page event_type) s)
  = [ {| r_verb := GET;
         r_path := "/v1/webhooks/" ++ webhook_id ++ "/deliveries";
         r_params := Some (Webhooks.list_deliveries_params page per_page
                             event_type);
         r_json := None |} ].
Proof. unfold Webhooks.list_deliveries, client_get. by rewrite run_call. Qed.

(** The scenario [list(status="overdue", page=2)]: both values are in
    the mapping, and so are the six parameters left unset, as [None]. *)
Example sr_list_scenario :
  ServiceRequests.call_list
    (method_call ServiceRequests.self []
       [("status", VStr "overdue"); ("page", VInt 2)])
  = Enters (ServiceRequests.list (VInt 2) VNone VNone VNone VNone
              (VStr "overdue") VNone VNone)
  ∧ ServiceRequests.list_params (VInt 2) VNone VNone VNone VNone
      (VStr "overdue") VNone VNone
    = {[ "page" := VInt 2; "per_page" := VNone; "search" := VNone;
         "sort" := VNone; "order" := VNone; "status" := VStr "overdue";
         "priority" := VNone; "client_id" := VNone ]}.
Proof. split; vm_compute; reflexivity. Qed.

(** C3, as stated, fails: [list()] with nothing set hands the transport
    a mapping in which [page] is present, with the value [None]. *)
Lemma list_unset_page_sent_as_none :
  (λ r, r_params r ≫= (.!! "page"))
    <$> o_requests
          (run (replying VNone)
             (ServiceRequests.list VNone VNone VNone VNone VNone VNone VNone
                VNone) 0)
  = [Some VNone].
Proof. vm_compute. reflexivity. Qed.

(** C3, amended. [list] and [list_deliveries] hand the transport a
    mapping that holds every declared parameter, each with the argument
    as passed, hence [None] for one left unset; the resource method drops
    nothing, which is left to the transport. *)
Theorem list_params_hold_every_parameter :
  (∀ page per_page search sort order status priority client_id,
     let params :=
       ServiceRequests.list_params page per_page search sort order status
         priority client_id in
     (∀ St (t : transport St) s,
        o_requests
          (run t (ServiceRequests.list page per_page search sort order
                    status priority client_id) s)
        = [ {| r_verb := GET; r_path := "/v1/service-requests";
               r_params := Some params; r_json := None |} ]) ∧
     params !! "page" = Some page ∧
     params !! "per_page" = Some per_page ∧
     params !! "search" = Some search ∧
     params !! "sort" = Some sort ∧
     params !! "order" = Some order ∧
     params !! "status" = Some status ∧
     params !! "priority" = Some priority ∧
     params !! "client_id" = Some client_id ∧
     dom params = {[ "page"; "per_page"; "search"; "sort"; "order";
                     "status"; "priority"; "client_id" ]}) ∧
  (∀ page per_page,
     let params := Webhooks.list_params page per_page in
     (∀ St (t : transport St) s,
        o_requests (run t (Webhooks.list page per_page) s)
        = [ {| r_verb := GET; r_path := "/v1/webhooks";
               r_params := Some params; r_json := None |} ]) ∧
     params !! "page" = Some page ∧
     params !! "per_page" = Some per_page ∧
     dom params = {[ "page"; "per_page" ]}) ∧
  (∀ webhook_id page per_page event_type,
     let params := Webhooks.list_deliveries_params page per_page event_type in
     (∀ St (t : transport St) s,
        o_requests
          (run t (Webhooks.list_deliveries webhook_id page per_page
                    event_type) s)
        = [ {| r_verb := GET;
               r_path := "/v1/webhooks/" ++ webhook_id ++ "/deliveries";
               r_params := Some params; r_json := None |} ]) ∧
     params !! "page" = Some page ∧
     params !! "per_page" = Some per_page ∧
     params !! "event_type" = Some event_type ∧
     dom params = {[ "page"; "per_page"; "event_type" ]}).
Proof.
  repeat apply conj; intros;
    repeat match goal with x := _ |- _ => subst x end.
  - split; [intros; apply sr_list_sends|].
    unfold ServiceRequests.list_params. repeat split; lookup_display.
  - split; [intros; apply wh_list_sends|].
    unfold Webhooks.list_params. repeat split; lookup_display.
  - split; [intros; apply wh_list_deliveries_sends|].
    unfold Webhooks.list_deliveries_params. repeat split; lookup_display.
Qed.

(** C4, as stated, fails: [WebhooksResource.list] has no [search]
    parameter, so [webhooks.list(search="x")] raises [TypeError]. *)
Lemma webhooks_list_refuses_search :
  Webhooks.call_list (method_call Webhooks.self [] [("search", VStr "x")])
  = Refused (UnexpectedKeyword "search").
Proof. vm_compute. reflexivity. Qed.

(** C4, amended. [ServiceRequestsResource.list] takes [page],
    [per_page], [search], [sort], [order] (and [status], [priority],
    [client_id]), any of them given or left out on its own, in any order,
    a parameter left out being [None]. [WebhooksResource.list] takes
    [page] and [per_page] only, [list_deliveries] takes [page],
    [per_page] and [event_type] only, in the same way; both refuse a
    call that passes [search], [sort] or [order]. *)
Theorem list_parameters_accepted :
  (∀ kws,
     NoDup kws.*1 →
     kws.*1 ⊆ ["page"; "per_page"; "search"; "sort"; "order"; "status";
               "priority"; "client_id"] →
     ServiceRequests.call_list (method_call ServiceRequests.self [] kws)
     = Enters (ServiceRequests.list
                 (keyword_or_none kws "page") (keyword_or_none kws "per_page")
                 (keyword_or_none kws "search") (keyword_or_none kws "sort")
                 (keyword_or_none kws "order") (keyword_or_none kws "status")
                 (keyword_or_none kws "priority")
                 (keyword_or_none kws "client_id"))) ∧
  (∀ kws,
     NoDup kws.*1 →
     kws.*1 ⊆ ["page"; "per_page"] →
     Webhooks.call_list (method_call Webhooks.self [] kws)
     = Enters (Webhooks.list (keyword_or_none kws "page")
                 (keyword_or_none kws "per_page"))) ∧
  (∀ webhook_id kws,
     NoDup kws.*1 →
     kws.*1 ⊆ ["page"; "per_page"; "event_type"] →
     Webhooks.call_list_deliveries
       (method_call Webhooks.self [VStr webhook_id] kws)
     = Enters (Webhooks.list_deliveries webhook_id
                 (keyword_or_none kws "page") (keyword_or_none kws "per_page")
                 (keyword_or_none kws "event_type"))) ∧
  (∀ c k,
     k ∈ (c_kw c).*1 → k ∈ ["search"; "sort"; "order"] →
     refused (Webhooks.call_list c) = true ∧
     refused (Webhooks.call_list_deliveries c) = true).
Proof.
  repeat apply conj.
  - apply sr_call_list_accepts.
  - apply wh_call_list_accepts.
  - apply wh_call_list_deliveries_accepts.
  - intros c k Hk Hin. split.
    + unfold Webhooks.call_list.
      destruct (bind_args_refuses Webhooks.list_sig c k) as [e ->];
        [done|done| |done].
      intros Hp. keyword_cases Hin; keyword_cases Hp.
    + unfold Webhooks.call_list_deliveries.
      destruct (bind_args_refuses Webhooks.list_deliveries_sig c k) as [e ->];
        [done|done| |done].
      intros Hp. keyword_cases Hin; keyword_cases Hp.
Qed.

(** Calls the hypotheses of C4 cover: [list(status="overdue", page=2)],
    [webhooks.list(per_page=50)], [list_deliveries("wh_1", page=3)], and
    [webhooks.list(sort="name")], which is refused. *)
Lemma list_parameters_accepted_witness :
  ServiceRequests.call_list
    (method_call ServiceRequests.self []
       [("status", VStr "overdue"); ("page", VInt 2)])
  = Enters (ServiceRequests.list (VInt 2) VNone VNone VNone VNone
              (VStr "overdue") VNone VNone)
  ∧ Webhooks.call_list (method_call Webhooks.self [] [("per_page", VInt 50)])
    = Enters (Webhooks.list VNone (VInt 50))
  ∧ Webhooks.call_list_deliveries
      (method_call Webhooks.self [VStr "wh_1"] [("page", VInt 3)])
    = Enters (Webhooks.list_deliveries "wh_1" (VInt 3) VNone VNone)
  ∧ refused
      (Webhooks.call_list
         (method_call Webhooks.self [] [("sort", VStr "name")])) = true.
Proof.
  destruct list_parameters_accepted as (Hsr & Hwh & Hdel & Href).
  repeat apply conj.
  - apply (Hsr [("status", VStr "overdue"); ("page", VInt 2)]).
    + apply (bool_decide_unpack _). vm_compute. reflexivity.
    + apply (bool_decide_unpack _). vm_compute. reflexivity.
  - apply (Hwh [("per_page", VInt 50)]).
    + apply (bool_decide_unpack _). vm_compute. reflexivity.
    + apply (bool_decide_unpack _). vm_compute. reflexivity.
  - apply (Hdel "wh_1" [("page", VInt 3)]).
    + apply (bool_decide_unpack _). vm_compute. reflexivity.
    + apply (bool_decide_unpack _). vm_compute. reflexivity.
  - apply (Href (method_call Webhooks.self [] [("sort", VStr "name")]) "sort").
    + apply (bool_decide_unpack _). vm_compute. reflexivity.
    + apply (bool_decide_unpack _). vm_compute. reflexivity.
Defined.

(* ===================================================================== *)
(** ** One round trip, its endpoint and its result                        *)
(* ===================================================================== *)

(** Every body is one call of the transport: followed by nothing, or,
    for [delete], by the implicit [return None]. *)
Lemma body_shape (i : invocation) :
  ∃ r, body i = (if returns_nothing i
                 then _ ← Call r Ret; mret VNone
                 else Call r Ret)
       ∧ (r_verb r, r_path r) = spec_endpoint i.
Proof. destruct i; eexists; split; reflexivity. Qed.

(** A transport that raises: the method raises the same exception after
    that one request. *)
Example test_propagates_failure e :
  run (failing e) (Webhooks.test "wh_1") 0
  = {| o_outcome := Raised e; o_state := 1;
       o_requests := [ {| r_verb := POST; r_path := "/v1/webhooks/wh_1/test";
                          r_params := None; r_json := None |} ] |}.
Proof. reflexivity. Qed.

(** The literal record of the specification, in an envelope. *)
Example get_round_trip_literal :
  let entity := VDict {[ "id" := VStr "c1"; "first_name" := VStr "Jo";
                         "status" := VStr "lead" ]} in
  let envelope :=
    VDict {[ "data" := entity;
             "meta" := VDict {[ "request_id" := VStr "r1";
                                "timestamp" := VStr "t" ]} ]} in
  o_outcome (run (replying envelope) (ServiceRequests.get "c1") 0)
  = Returned envelope.
Proof. reflexivity. Qed.

(** C5. Every resource method calls the transport exactly once, and its
    outcome is the outcome of that call: an exception of the transport is
    raised unchanged, with no further request and no substitute result; a
    decoded value is returned as it is ([delete] returns [None]). *)
Theorem one_transport_call_failure_propagated :
  ∀ (i : invocation) St (t : transport St) (s : St),
    ∃ r,
      run t (body i) s
      = {| o_outcome :=
             match (t r s).1 with
             | Returned v => Returned (if returns_nothing i then VNone else v)
             | Raised e => Raised e
             end;
           o_state := (t r s).2;
           o_requests := [r] |}.
Proof.
  intros i St t s. destruct (body_shape i) as (r & -> & _). exists r.
  destruct (returns_nothing i).
  - apply run_call_discard.
  - rewrite run_call. by destruct (t r s).1.
Qed.

(** C6. [get] and [list] (and [list_deliveries]) return to the caller
    the very value the transport decoded for their request, so an
    envelope and the entity records in it come back with the same keys
    and the same values. *)
Theorem get_and_list_return_transport_value :
  ∀ St (t : transport St) (s : St),
    (∀ id,
       o_outcome (run t (ServiceRequests.get id) s)
       = (t {| r_verb := GET; r_path := "/v1/service-requests/" ++ id;
               r_params := None; r_json := None |} s).1) ∧
    (∀ id,
       o_outcome (run t (Webhooks.get id) s)
       = (t {| r_verb := GET; r_path := "/v1/webhooks/" ++ id;
               r_params := None; r_json := None |} s).1) ∧
    (∀ page per_page search sort order status priority client_id,
       o_outcome
         (run t (ServiceRequests.list page per_page search sort order status
                   priority client_id) s)
       = (t {| r_verb := GET; r_path := "/v1/service-requests";
               r_params := Some (ServiceRequests.list_params page per_page
                                   search sort order status priority
                                   client_id);
               r_json := None |} s).1) ∧
    (∀ page per_page,
       o_outcome (run t (Webhooks.list page per_page) s)
       = (t {| r_verb := GET; r_path := "/v1/webhooks";
               r_params := Some (Webhooks.list_params page per_page);
               r_json := None |} s).1) ∧
    (∀ webhook_id page per_page event_type,
       o_outcome
         (run t (Webhooks.list_deliveries webhook_id page per_page
                   event_type) s)
       = (t {| r_verb := GET;
               r_path := "/v1/webhooks/" ++ webhook_id ++ "/deliveries";
               r_params := Some (Webhooks.list_deliveries_params page
                                   per_page event_type);
               r_json := None |} s).1) ∧
    (∀ (envelope : value) id n,
       o_outcome (run (replying envelope) (ServiceRequests.get id) n)
       = Returned envelope ∧
       o_outcome (run (replying envelope) (Webhooks.get id) n)
       = Returned envelope ∧
       o_outcome
         (run (replying envelope)
            (ServiceRequests.list VNone VNone VNone VNone VNone VNone VNone
               VNone) n)
       = Returned envelope ∧
       o_outcome (run (replying envelope) (Webhooks.list VNone VNone) n)
       = Returned envelope).
Proof.
  intros St t s. repeat apply conj; intros.
  - unfold ServiceRequests.get, client_get. by rewrite run_call.
  - unfold Webhooks.get, client_get. by rewrite run_call.
  - unfold ServiceRequests.list, client_get. by rewrite run_call.
  - unfold Webhooks.list, client_get. by rewrite run_call.
  - unfold Webhooks.list_deliveries, client_get. by rewrite run_call.
  - repeat split; reflexivity.
Qed.

(** C7. Every method sends its one request to the endpoint the
    specification gives it: GET [/v1/{resource}] for [list], GET
    [/v1/{resource}/{id}] for [get], POST [/v1/{resource}] for [create],
    PUT [/v1/{resource}/{id}] for [update], DELETE [/v1/{resource}/{id}]
    for [delete], GET [/v1/webhooks/{id}/deliveries] for
    [list_deliveries] and POST [/v1/webhooks/{id}/test] for [test],
    whatever the [id] and the other arguments. *)
Theorem methods_target_fixed_endpoints :
  ∀ (i : invocation) St (t : transport St) (s : St),
    (λ r, (r_verb r, r_path r)) <$> o_requests (run t (body i) s)
    = [spec_endpoint i].
Proof.
  intros i St t s. destruct (body_shape i) as (r & -> & <-).
  destruct (returns_nothing i).
  - by rewrite run_call_discard.
  - by rewrite run_call.
Qed.

(* ===================================================================== *)
(** ** The webhook secret                                                 *)
(* ===================================================================== *)

(** C8, as stated, fails: the response of [get] is annotated
    [ApiResponse[Webhook]] like the response of [create], and [Webhook]
    declares [secret]; the key is not particular to the create shape. *)
Lemma get_response_declares_secret :
  Types.declares (Webhooks.returns Webhooks.OpGet) "secret" = true
  ∧ Webhooks.returns Webhooks.OpGet = Webhooks.returns Webhooks.OpCreate.
Proof. split; reflexivity. Qed.

(** C8, amended. [webhooks.create(name="N", url="https://x",
    events=["invoice.paid"])] returns the response the transport decoded,
    unchanged; its shape [ApiResponse[Webhook]] declares [secret] as a
    required [str]. The same [Webhook] shape, [secret] included, is the
    shape of the [get], [update] and [list] responses; the responses of
    [list_deliveries], [test] and [delete] declare no [secret]. *)
Theorem webhook_secret_in_every_webhook_shape :
  (∀ op,
     Types.declares (Webhooks.returns op) "secret"
     = match op with
       | Webhooks.OpList | Webhooks.OpGet | Webhooks.OpCreate
       | Webhooks.OpUpdate => true
       | Webhooks.OpDelete | Webhooks.OpListDeliveries
       | Webhooks.OpTest => false
       end) ∧
  Webhooks.returns Webhooks.OpCreate
  = Types.ApiResponse (Types.Entity Types.Webhook) ∧
  Types.key "secret" Types.TStr ∈ Types.td_fields Types.Webhook ∧
  (∀ St (t : transport St) (s : St) name url events,
     o_outcome (run t (Webhooks.create name url events) s)
     = (t {| r_verb := POST; r_path := "/v1/webhooks"; r_params := None;
             r_json := Some (Webhooks.create_data name url events) |} s).1) ∧
  (∀ (envelope : value) n,
     Webhooks.call_create
       (method_call Webhooks.self []
          [("name", VStr "N"); ("url", VStr "https://x");
           ("events", VList [VStr "invoice.paid"])])
     = Enters (Webhooks.create (VStr "N") (VStr "https://x")
                 (VList [VStr "invoice.paid"])) ∧
     o_outcome
       (run (replying envelope)
          (Webhooks.create (VStr "N") (VStr "https://x")
             (VList [VStr "invoice.paid"])) n)
     = Returned envelope).
Proof.
  repeat apply conj.
  - by intros [].
  - reflexivity.
  - unfold Types.Webhook. cbn [Types.td_fields].
    do 5 apply list_elem_of_further. apply list_elem_of_here.
  - intros. unfold Webhooks.create, client_post. by rewrite run_call.
  - intros envelope n. split; [vm_compute|]; reflexivity.
Qed.

(* ===================================================================== *)
(** ** Field names in [ServiceRequestsResource.update]                    *)
(* ===================================================================== *)

(** C9, as stated, fails for the key [id]: it names the method's own
    parameter. [update(id="sr_1", status="scheduled")] binds it to the
    parameter, which goes into the URL, and the body has no [id];
    [update("sr_1", id="sr_2")] never reaches the body. *)
Lemma update_id_keyword_not_in_body :
  ServiceRequests.call_update
    (method_call ServiceRequests.self []
       [("id", VStr "sr_1"); ("status", VStr "scheduled")])
  = Enters (ServiceRequests.update "sr_1" {[ "status" := VStr "scheduled" ]})
  ∧ ServiceRequests.update_data {[ "status" := VStr "scheduled" ]} !! "id"
    = None
  ∧ ServiceRequests.call_update
      (method_call ServiceRequests.self [VStr "sr_1"] [("id", VStr "sr_2")])
    = Refused (MultipleValues "id").
Proof. repeat split; vm_compute; reflexivity. Qed.

(** C9, amended. [update] does not validate field names: every keyword
    other than the method's own parameters [id] and [self] lands in
    [**kwargs], and every entry of [**kwargs] whose value is not [None]
    is sent in the body under its key with its value, whether or not the
    key is one of [UpdateServiceRequestParams]; [business_id] and
    [created_at], for instance, are not. A keyword [id] is the parameter
    [id]: it selects the URL and the body has no [id]. *)
Theorem update_forwards_unvalidated_keywords :
  (∀ id kws,
     NoDup kws.*1 → "self" ∉ kws.*1 → "id" ∉ kws.*1 →
     ServiceRequests.call_update
       (method_call ServiceRequests.self [VStr id] kws)
     = Enters (ServiceRequests.update id (list_to_map kws)) ∧
     (∀ St (t : transport St) s,
        o_requests (run t (ServiceRequests.update id (list_to_map kws)) s)
        = [ {| r_verb := PUT; r_path := "/v1/service-requests/" ++ id;
               r_params := None;
               r_json := Some (ServiceRequests.update_data
                                 (list_to_map kws)) |} ]) ∧
     (∀ k v, (k, v) ∈ kws → v ≠ VNone →
             ServiceRequests.update_data (list_to_map kws) !! k = Some v)) ∧
  (∀ id (kws1 kws2 : list (string * value)),
     NoDup (kws1 ++ ("id", VStr id) :: kws2)%list.*1 →
     "self" ∉ (kws1 ++ kws2)%list.*1 →
     ServiceRequests.call_update
       (method_call ServiceRequests.self []
          (kws1 ++ ("id", VStr id) :: kws2)%list)
     = Enters (ServiceRequests.update id (list_to_map (kws1 ++ kws2)%list)) ∧
     ServiceRequests.update_data (list_to_map (kws1 ++ kws2)%list) !! "id"
     = None) ∧
  (∀ kwargs k,
     ServiceRequests.update_data kwargs !! k = kwargs !! k ≫= when_set) ∧
  ("business_id" ∉ Types.keys Types.UpdateServiceRequestParams) ∧
  ("created_at" ∉ Types.keys Types.UpdateServiceRequestParams).
Proof.
  repeat apply conj.
  - intros id kws Hnd Hself Hid. repeat apply conj.
    + by apply sr_call_update_accepts.
    + intros. apply sr_update_sends.
    + intros k v Hin Hv. rewrite sr_update_data_lookup.
      rewrite (elem_of_list_to_map_1 _ _ _ Hnd Hin). simpl.
      by apply when_set_Some.
  - intros id kws1 kws2 Hnd Hself. split.
    + by apply sr_call_update_id_keyword.
    + destruct (NoDup_keys_drop _ _ _ _ Hnd) as [_ Hid].
      rewrite sr_update_data_lookup.
      by rewrite (not_elem_of_list_to_map_1 _ "id").
  - apply sr_update_data_lookup.
  - apply (bool_decide_unpack _). vm_compute. reflexivity.
  - apply (bool_decide_unpack _). vm_compute. reflexivity.
Qed.

(** Calls the hypotheses of C9 cover:
    [update("sr_1", business_id="b_2", created_at="2020-01-01")] and
    [update(business_id="b_2", id="sr_1", created_at="2020-01-01")]. *)
Lemma update_forwards_unvalidated_keywords_witness :
  ServiceRequests.call_update
    (method_call ServiceRequests.self [VStr "sr_1"]
       [("business_id", VStr "b_2"); ("created_at", VStr "2020-01-01")])
  = Enters (ServiceRequests.update "sr_1"
              (list_to_map [("business_id", VStr "b_2");
                            ("created_at", VStr "2020-01-01")]))
  ∧ ServiceRequests.update_data
      (list_to_map [("business_id", VStr "b_2");
                    ("created_at", VStr "2020-01-01")]) !! "business_id"
    = Some (VStr "b_2")
  ∧ ServiceRequests.call_update
      (method_call ServiceRequests.self []
         [("business_id", VStr "b_2"); ("id", VStr "sr_1");
          ("created_at", VStr "2020-01-01")])
    = Enters (ServiceRequests.update "sr_1"
                (list_to_map [("business_id", VStr "b_2");
                              ("created_at", VStr "2020-01-01")])).
Proof.
  destruct update_forwards_unvalidated_keywords as (H & Hkw & _).
  destruct (H "sr_1" [("business_id", VStr "b_2");
                      ("created_at", VStr "2020-01-01")])
    as (Hcall & _ & Hbody).
  - apply (bool_decide_unpack _). vm_compute. reflexivity.
  - apply (bool_decide_unpack _). vm_compute. reflexivity.
  - apply (bool_decide_unpack _). vm_compute. reflexivity.
  - split; [exact Hcall|]. split.
    + apply Hbody; [apply list_elem_of_here|discriminate].
    + apply (Hkw "sr_1" [("business_id", VStr "b_2")]
               [("created_at", VStr "2020-01-01")]).
      * apply (bool_decide_unpack _). vm_compute. reflexivity.
      * apply (bool_decide_unpack _). vm_compute. reflexivity.
Defined.

(* ===================================================================== *)
(** ** Further properties: what a call binds                              *)
(* ===================================================================== *)



Lemma bind_keywords_kwargs names varkw kws fr fr' p :
  bind_keywords names varkw kws fr = inr fr' →
  p ∈ names →
  f_kwargs fr' !! p = f_kwargs fr !! p.
Proof.
  revert fr. induction kws as [|[k v] kws IH]; intros fr Hb Hp.
  { by simplify_eq/=. }
  cbn in Hb. destruct (decide (k ∈ names)) as [Hk|Hk].
  - destruct (f_locals fr !! k); [done|]. by rewrite (IH _ Hb Hp).
  - destruct varkw; [|done]. destruct (f_kwargs fr !! k); [done|].
    rewrite (IH _ Hb Hp). cbn. rewrite lookup_insert_ne; [done|].
    by intros ->.
Qed.

Lemma bind_keywords_no_varkw names kws fr fr' :
  bind_keywords names false kws fr = inr fr' →
  f_kwargs fr' = f_kwargs fr.
Proof.
  revert fr. induction kws as [|[k v] kws IH]; intros fr Hb.
  { by simplify_eq/=. }
  cbn in Hb. destruct (decide (k ∈ names)); [|done].
  destruct (f_locals fr !! k); [done|]. by rewrite (IH _ Hb).
Qed.



(** Once a call is bound, [**kwargs] holds no parameter name, and is
    empty when the signature has no [**kwargs]. *)
Lemma bind_args_kwargs sg c fr p :
  bind_args sg c = inr fr →
  p ∈ (sig_params sg).*1 →
  f_kwargs fr !! p = None.
Proof.
  unfold bind_args. intros Hb Hp.
  destruct (bind_positional _ _ _) as [e|locals]; [done|].
  destruct (bind_keywords _ _ _ _) as [e|fr'] eqn:Hk; [done|].
  destruct (bind_defaults _ _) as [e|locals']; [done|]. simplify_eq. cbn.
  by rewrite (bind_keywords_kwargs _ _ _ _ _ _ Hk Hp).
Qed.

Lemma bind_args_no_varkw sg c fr :
  sig_varkw sg = false →
  bind_args sg c = inr fr →
  f_kwargs fr = ∅.
Proof.
  unfold bind_args. intros Hv Hb.
  destruct (bind_positional _ _ _) as [e|locals]; [done|].
  rewrite Hv in Hb.
  destruct (bind_keywords _ _ _ _) as [e|fr'] eqn:Hk; [done|].
  destruct (bind_defaults _ _) as [e|locals']; [done|]. simplify_eq. cbn.
  by rewrite (bind_keywords_no_varkw _ _ _ _ Hk).
Qed.





(** The common part of the proofs that a call with a keyword that names
    no parameter is refused. *)
Ltac refuse_keyword k :=
  match goal with
  | |- refused (match bind_args ?sg ?c with _ => _ end) = true =>
      let e := fresh "e" in
      let E := fresh "E" in
      destruct (bind_args_refuses sg c k) as [e E];
      [ done | done | done | by rewrite E ]
  end.

(** X2. Unlike [ServiceRequestsResource.update], every other method
    checks the names of its keyword arguments: a call with a keyword
    that is not one of the method's parameters is refused with a
    [TypeError], whatever its other arguments. *)
Theorem unknown_keyword_refused :
  ∀ (c : call_args) (k : string),
    k ∈ (c_kw c).*1 →
    (k ∉ (sig_params ServiceRequests.list_sig).*1 →
     refused (ServiceRequests.call_list c) = true) ∧
    (k ∉ (sig_params ServiceRequests.get_sig).*1 →
     refused (ServiceRequests.call_get c) = true) ∧
    (k ∉ (sig_params ServiceRequests.create_sig).*1 →
     refused (ServiceRequests.call_create c) = true) ∧
    (k ∉ (sig_params ServiceRequests.delete_sig).*1 →
     refused (ServiceRequests.call_delete c) = true) ∧
    (k ∉ (sig_params Webhooks.list_sig).*1 →
     refused (Webhooks.call_list c) = true) ∧
    (k ∉ (sig_params Webhooks.get_sig).*1 →
     refused (Webhooks.call_get c) = true) ∧
    (k ∉ (sig_params Webhooks.create_sig).*1 →
     refused (Webhooks.call_create c) = true) ∧
    (k ∉ (sig_params Webhooks.update_sig).*1 →
     refused (Webhooks.call_update c) = true) ∧
    (k ∉ (sig_params Webhooks.delete_sig).*1 →
     refused (Webhooks.call_delete c) = true) ∧
    (k ∉ (sig_params Webhooks.list_deliveries_sig).*1 →
     refused (Webhooks.call_list_deliveries c) = true) ∧
    (k ∉ (sig_params Webhooks.test_sig).*1 →
     refused (Webhooks.call_test c) = true).
Proof.
  intros c k Hk. repeat apply conj; intros Hn.
  - unfold ServiceRequests.call_list. refuse_keyword k.
  - unfold ServiceRequests.call_get. refuse_keyword k.
  - unfold ServiceRequests.call_create. refuse_keyword k.
  - unfold ServiceRequests.call_delete. refuse_keyword k.
  - unfold Webhooks.call_list. refuse_keyword k.
  - unfold Webhooks.call_get. refuse_keyword k.
  - unfold Webhooks.call_create. refuse_keyword k.
  - unfold Webhooks.call_update. refuse_keyword k.
  - unfold Webhooks.call_delete. refuse_keyword k.
  - unfold Webhooks.call_list_deliveries. refuse_keyword k.
  - unfold Webhooks.call_test. refuse_keyword k.
Qed.

Lemma unknown_keyword_refused_witness :
  refused (ServiceRequests.call_create
             (method_call ServiceRequests.self [VStr "AC Not Cooling"]
                [("business_id", VStr "b_2")])) = true
  ∧ refused (Webhooks.call_update
               (method_call Webhooks.self [VStr "wh_1"]
                  [("secret", VStr "s")])) = true.
Proof.
  split.
  - apply (unknown_keyword_refused
             (method_call ServiceRequests.self [VStr "AC Not Cooling"]
                [("business_id", VStr "b_2")]) "business_id").
    + apply (bool_decide_unpack _). vm_compute. reflexivity.
    + apply (bool_decide_unpack _). vm_compute. reflexivity.
  - apply (unknown_keyword_refused
             (method_call Webhooks.self [VStr "wh_1"]
                [("secret", VStr "s")]) "secret").
    + apply (bool_decide_unpack _). vm_compute. reflexivity.
    + apply (bool_decide_unpack _). vm_compute. reflexivity.
Defined.

(** X3. However [ServiceRequestsResource.update] is called, the body it
    sends has neither an [id] nor a [self] key: the two names are the
    method's own parameters and never reach [**kwargs]. *)
Theorem update_body_never_holds_id :
  ∀ (c : call_args) (p : prog value),
    ServiceRequests.call_update c = Enters p →
    ∃ id kwargs,
      p = ServiceRequests.update id kwargs ∧
      (∀ St (t : transport St) s,
         o_requests (run t p s)
         = [ {| r_verb := PUT; r_path := "/v1/service-requests/" ++ id;
                r_params := None;
                r_json := Some (ServiceRequests.update_data kwargs) |} ]) ∧
      ServiceRequests.update_data kwargs !! "id" = None ∧
      ServiceRequests.update_data kwargs !! "self" = None.
Proof.
  intros c p. unfold ServiceRequests.call_update.
  destruct (bind_args _ c) as [e|fr] eqn:Hb; [done|].
  destruct (local fr "id") as [| | |id| | |]; try done.
  intros [= <-]. exists id, (f_kwargs fr). repeat apply conj.
  - done.
  - intros. apply sr_update_sends.
  - rewrite sr_update_data_lookup,
      (bind_args_kwargs _ _ _ "id" Hb); [done|closed].
  - rewrite sr_update_data_lookup,
      (bind_args_kwargs _ _ _ "self" Hb); [done|closed].
Qed.

Lemma update_body_never_holds_id_witness :
  ∃ id kwargs,
    ServiceRequests.update "sr_1" {[ "status" := VStr "scheduled" ]}
    = ServiceRequests.update id kwargs ∧
    ServiceRequests.update_data kwargs !! "id" = None.
Proof.
  destruct (update_body_never_holds_id
              (method_call ServiceRequests.self []
                 [("id", VStr "sr_1"); ("status", VStr "scheduled")])
              (ServiceRequests.update "sr_1"
                 {[ "status" := VStr "scheduled" ]}))
    as (id & kwargs & Hp & _ & Hid & _).
  - vm_compute. reflexivity.
  - exists id, kwargs. split; [exact Hp|exact Hid].
Defined.

(* ===================================================================== *)
(** ** Further properties: positional and keyword arguments               *)
(* ===================================================================== *)

(** X4. The id of [get], [delete] and [test] may be passed positionally
    or as the keyword [id], with the same effect; passed both ways the
    call is refused. *)
Theorem id_positional_or_keyword :
  ∀ id other : string,
    (ServiceRequests.call_get
       (method_call ServiceRequests.self [VStr id] [])
     = Enters (ServiceRequests.get id) ∧
     ServiceRequests.call_get
       (method_call ServiceRequests.self [] [("id", VStr id)])
     = Enters (ServiceRequests.get id) ∧
     ServiceRequests.call_get
       (method_call ServiceRequests.self [VStr id] [("id", VStr other)])
     = Refused (MultipleValues "id")) ∧
    (ServiceRequests.call_delete
       (method_call ServiceRequests.self [VStr id] [])
     = Enters (ServiceRequests.delete id) ∧
     ServiceRequests.call_delete
       (method_call ServiceRequests.self [] [("id", VStr id)])
     = Enters (ServiceRequests.delete id) ∧
     ServiceRequests.call_delete
       (method_call ServiceRequests.self [VStr id] [("id", VStr other)])
     = Refused (MultipleValues "id")) ∧
    (Webhooks.call_get (method_call Webhooks.self [VStr id] [])
     = Enters (Webhooks.get id) ∧
     Webhooks.call_get (method_call Webhooks.self [] [("id", VStr id)])
     = Enters (Webhooks.get id) ∧
     Webhooks.call_get
       (method_call Webhooks.self [VStr id] [("id", VStr other)])
     = Refused (MultipleValues "id")) ∧
    (Webhooks.call_delete (method_call Webhooks.self [VStr id] [])
     = Enters (Webhooks.delete id) ∧
     Webhooks.call_delete (method_call Webhooks.self [] [("id", VStr id)])
     = Enters (Webhooks.delete id) ∧
     Webhooks.call_delete
       (method_call Webhooks.self [VStr id] [("id", VStr other)])
     = Refused (MultipleValues "id")) ∧
    (Webhooks.call_test (method_call Webhooks.self [VStr id] [])
     = Enters (Webhooks.test id) ∧
     Webhooks.call_test (method_call Webhooks.self [] [("id", VStr id)])
     = Enters (Webhooks.test id) ∧
     Webhooks.call_test
       (method_call Webhooks.self [VStr id] [("id", VStr other)])
     = Refused (MultipleValues "id")).
Proof. intros id other. repeat apply conj; reflexivity. Qed.

(** X5. Positional arguments of the list methods fill the parameters
    in the order of the signature ([page], [per_page], [search], [sort],
    [order], [status], [priority], [client_id] for service requests;
    [page], [per_page] for webhooks; [page], [per_page], [event_type]
    after the id for [list_deliveries]), the others staying [None]; one
    positional argument too many and the call is refused. *)
Theorem list_positional_order :
  ∀ pos : list value,
    ServiceRequests.call_list (method_call ServiceRequests.self pos [])
    = (if decide (List.length pos ≤ 8)%nat
       then Enters (ServiceRequests.list
                      (positional_or_none pos 0) (positional_or_none pos 1)
                      (positional_or_none pos 2) (positional_or_none pos 3)
                      (positional_or_none pos 4) (positional_or_none pos 5)
                      (positional_or_none pos 6) (positional_or_none pos 7))
       else Refused TooManyPositional) ∧
    Webhooks.call_list (method_call Webhooks.self pos [])
    = (if decide (List.length pos ≤ 2)%nat
       then Enters (Webhooks.list (positional_or_none pos 0)
                      (positional_or_none pos 1))
       else Refused TooManyPositional) ∧
    (∀ webhook_id,
       Webhooks.call_list_deliveries
         (method_call Webhooks.self (VStr webhook_id :: pos) [])
       = (if decide (List.length pos ≤ 3)%nat
          then Enters (Webhooks.list_deliveries webhook_id
                         (positional_or_none pos 0)
                         (positional_or_none pos 1)
                         (positional_or_none pos 2))
          else Refused TooManyPositional)).
Proof.
  intros pos. repeat apply conj.
  - do 9 (destruct pos as [|? pos]; [reflexivity|]).
    rewrite decide_False by (cbn; lia). reflexivity.
  - do 3 (destruct pos as [|? pos]; [reflexivity|]).
    rewrite decide_False by (cbn; lia). reflexivity.
  - intros webhook_id.
    do 4 (destruct pos as [|? pos]; [reflexivity|]).
    rewrite decide_False by (cbn; lia). reflexivity.
Qed.

(* ===================================================================== *)
(** ** Further properties: bodies as a function of the keywords           *)
(* ===================================================================== *)

(** A required parameter passed by keyword. *)
Lemma local_keyword_required (names : list string) kws (L D : dict) k :
  k ∈ names → L !! k = None → D !! k = None →
  default VNone
    ((list_to_map (filter (λ kv, kv.1 ∈ names) kws) ∪ L ∪ D) !! k)
  = keyword_or_none kws k.
Proof.
  intros Hk HL HD. unfold keyword_or_none.
  rewrite !lookup_union, named_lookup, HL, HD by done.
  by destruct (list_to_map kws !! k).
Qed.

Lemma keyword_given (kws : list (string * value)) k :
  k ∈ kws.*1 → is_Some (list_to_map (M := dict) kws !! k).
Proof.
  intros Hk. destruct (list_to_map kws !! k) eqn:E; [by eexists|].
  by apply not_elem_of_list_to_map_2 in E.
Qed.

Lemma sr_call_create_accepts kws :
  NoDup kws.*1 →
  kws.*1 ⊆ ["title"; "client_id"; "description"; "status"; "source";
            "priority"; "requested_date"; "preferred_time"; "address";
            "contact_name"; "contact_email"; "contact_phone"; "notes"] →
  "title" ∈ kws.*1 →
  ServiceRequests.call_create (method_call ServiceRequests.self [] kws)
  = Enters (ServiceRequests.create
              (keyword_or_none kws "title")
              (keyword_or_none kws "client_id")
              (keyword_or_none kws "description")
              (keyword_or_none kws "status")
              (keyword_or_none kws "source")
              (keyword_or_none kws "priority")
              (keyword_or_none kws "requested_date")
              (keyword_or_none kws "preferred_time")
              (keyword_or_none kws "address")
              (keyword_or_none kws "contact_name")
              (keyword_or_none kws "contact_email")
              (keyword_or_none kws "contact_phone")
              (keyword_or_none kws "notes")).
Proof.
  intros Hnd Hsub Htitle.
  unfold ServiceRequests.call_create, ServiceRequests.create_sig,
    bind_args, method_call.
  cbn [c_pos c_kw sig_params sig_varkw bind_positional].
  unfold required, optional. cbn [bind_positional].
  rewrite bind_keywords_accepts;
    [|done|intros k Hk; apply Hsub in Hk; keyword_cases Hk; closed].
  cbn [f_locals f_kwargs]. rewrite bind_defaults_total.
  - unfold local. cbn [f_locals f_kwargs].
    rewrite (local_keyword_required _ kws _ _ "title") by closed.
    unfold keyword_or_none.
    by rewrite !(local_keyword _ kws _ _ _ VNone) by closed.
  - intros p Hp. keyword_cases Hp.
    + rewrite lookup_union_r; [by simplify_map_eq|].
      apply named_absent. intros Hin. apply Hsub in Hin. keyword_cases Hin.
    + rewrite lookup_union_l'; rewrite named_lookup by closed;
        by apply keyword_given.
Qed.

(** What the body of [create] holds for a key, in terms of the
    keywords of the call. *)
Lemma sr_create_data_keywords kws k :
  kws.*1 ⊆ ["title"; "client_id"; "description"; "status"; "source";
            "priority"; "requested_date"; "preferred_time"; "address";
            "contact_name"; "contact_email"; "contact_phone"; "notes"] →
  "title" ∈ kws.*1 →
  ServiceRequests.create_data
    (keyword_or_none kws "title") (keyword_or_none kws "client_id")
    (keyword_or_none kws "description") (keyword_or_none kws "status")
    (keyword_or_none kws "source") (keyword_or_none kws "priority")
    (keyword_or_none kws "requested_date")
    (keyword_or_none kws "preferred_time") (keyword_or_none kws "address")
    (keyword_or_none kws "contact_name") (keyword_or_none kws "contact_email")
    (keyword_or_none kws "contact_phone") (keyword_or_none kws "notes") !! k
  = dict_comp ServiceRequests.create_keeps (list_to_map kws) !! k.
Proof.
  intros Hsub Htitle. apply keyword_given in Htitle as [t Ht].
  unfold ServiceRequests.create_data. rewrite !dict_comp_lookup.
  unfold ServiceRequests.create_fields, dict_display. cbn [foldl fst snd].
  destruct (decide (k ∈ kws.*1)) as [Hk|Hk].
  - apply Hsub in Hk. keyword_cases Hk; simplify_map_eq;
      unfold keyword_or_none, ServiceRequests.create_keeps;
      try rewrite Ht; try done;
      match goal with |- context [list_to_map kws !! ?q] =>
        destruct (list_to_map kws !! q) as [[]|]; done
      end.
  - pose proof (not_elem_of_list_to_map_1 (M := gmap string) kws k Hk)
      as Hnone.
    rewrite Hnone.
    match goal with |- context [?m !! k] =>
      destruct (m !! k) as [v|] eqn:E; [|done]
    end.
    repeat (apply lookup_insert_Some in E as [[<- <-]|[_ E]];
            [unfold keyword_or_none, ServiceRequests.create_keeps;
             first [ congruence | by rewrite Hnone ]|]).
    by rewrite lookup_empty in E.
Qed.

Lemma wh_update_data_keywords kws :
  kws.*1 ⊆ ["name"; "url"; "events"; "is_active"] →
  Webhooks.update_data
    (keyword_or_none kws "name") (keyword_or_none kws "url")
    (keyword_or_none kws "events") (keyword_or_none kws "is_active")
  = dict_comp Webhooks.update_keeps (list_to_map kws).
Proof.
  intros Hsub. apply map_eq. intros k.
  unfold Webhooks.update_data. rewrite !dict_comp_lookup.
  unfold Webhooks.update_fields, dict_display. cbn [foldl fst snd].
  destruct (decide (k ∈ kws.*1)) as [Hk|Hk].
  - apply Hsub in Hk. keyword_cases Hk; simplify_map_eq;
      unfold keyword_or_none, Webhooks.update_keeps;
      match goal with |- context [list_to_map kws !! ?q] =>
        destruct (list_to_map kws !! q) as [[]|]; done
      end.
  - pose proof (not_elem_of_list_to_map_1 (M := gmap string) kws k Hk)
      as Hnone.
    rewrite Hnone.
    match goal with |- context [?m !! k] =>
      destruct (m !! k) as [v|] eqn:E; [|done]
    end.
    repeat (apply lookup_insert_Some in E as [[<- <-]|[_ E]];
            [unfold keyword_or_none, Webhooks.update_keeps;
             by rewrite Hnone|]).
    by rewrite lookup_empty in E.
Qed.

(** X6. The body of a [create] called with keywords only, all among its
    parameters and [title] one of them, is the comprehension applied to
    the keywords themselves: it holds [k: v] exactly when the call has
    the keyword [k=v] and [v] is not [None] or [k] is [title]. The
    [None] defaults of the parameters left out leave no trace. *)
Theorem create_body_from_keywords :
  ∀ kws : list (string * value),
    NoDup kws.*1 →
    kws.*1 ⊆ ["title"; "client_id"; "description"; "status"; "source";
              "priority"; "requested_date"; "preferred_time"; "address";
              "contact_name"; "contact_email"; "contact_phone"; "notes"] →
    "title" ∈ kws.*1 →
    ∃ p body,
      ServiceRequests.call_create (method_call ServiceRequests.self [] kws)
      = Enters p ∧
      (∀ St (t : transport St) s,
         o_requests (run t p s)
         = [ {| r_verb := POST; r_path := "/v1/service-requests";
                r_params := None; r_json := Some body |} ]) ∧
      body = dict_comp ServiceRequests.create_keeps (list_to_map kws) ∧
      (∀ k v, body !! k = Some v
              ↔ (k, v) ∈ kws ∧ (v ≠ VNone ∨ k = "title")).
Proof.
  intros kws Hnd Hsub Htitle. eexists _, _. split; [|split; [|split]].
  - by apply sr_call_create_accepts.
  - intros. apply sr_create_sends.
  - apply map_eq. intros k. by apply sr_create_data_keywords.
  - intros k v. rewrite sr_create_data_keywords, dict_comp_lookup by done.
    rewrite (elem_of_list_to_map (M := gmap string)) by done.
    unfold ServiceRequests.create_keeps.
    destruct (list_to_map kws !! k) as [w|]; [|split; [done|by intros [? _]]].
    destruct (String.eqb_spec k "title") as [->|Hne].
    + rewrite orb_true_r. split; [|by intros [? _]].
      intros ?. split; [done|by right].
    + rewrite orb_false_r.
      destruct w; simpl;
        (split;
         [ intros ?; simplify_eq; (split; [done|by left])
         | intros [? [?|?]]; by simplify_eq ]).
Qed.

Lemma create_body_from_keywords_witness :
  ∃ p body,
    ServiceRequests.call_create
      (method_call ServiceRequests.self []
         [("title", VStr "AC Not Cooling"); ("notes", VNone);
          ("priority", VStr "urgent")])
    = Enters p ∧
    (∀ St (t : transport St) s,
       o_requests (run t p s)
       = [ {| r_verb := POST; r_path := "/v1/service-requests";
              r_params := None; r_json := Some body |} ]) ∧
    body = dict_comp ServiceRequests.create_keeps
             (list_to_map [("title", VStr "AC Not Cooling"); ("notes", VNone);
                           ("priority", VStr "urgent")]).
Proof.
  destruct (create_body_from_keywords
              [("title", VStr "AC Not Cooling"); ("notes", VNone);
               ("priority", VStr "urgent")])
    as (p & body & Hcall & Hsent & Hbody & _).
  - apply (bool_decide_unpack _). vm_compute. reflexivity.
  - apply (bool_decide_unpack _). vm_compute. reflexivity.
  - apply (bool_decide_unpack _). vm_compute. reflexivity.
  - exists p, body. split; [exact Hcall|]. split; [exact Hsent|exact Hbody].
Defined.

(** X7. [WebhooksResource.update], with its four named parameters,
    builds from the keywords of a call the body that
    [ServiceRequestsResource.update] builds from them with [**kwargs]:
    the keywords whose value is not [None]. *)
Theorem webhook_update_body_from_keywords :
  ∀ (id : string) (kws : list (string * value)),
    NoDup kws.*1 →
    kws.*1 ⊆ ["name"; "url"; "events"; "is_active"] →
    ∃ p body,
      Webhooks.call_update (method_call Webhooks.self [VStr id] kws)
      = Enters p ∧
      (∀ St (t : transport St) s,
         o_requests (run t p s)
         = [ {| r_verb := PUT; r_path := "/v1/webhooks/" ++ id;
                r_params := None; r_json := Some body |} ]) ∧
      body = ServiceRequests.update_data (list_to_map kws) ∧
      (∀ k v, body !! k = Some v ↔ (k, v) ∈ kws ∧ v ≠ VNone).
Proof.
  intros id kws Hnd Hsub. eexists _, _. split; [|split; [|split]].
  - by apply wh_call_update_accepts.
  - intros. apply wh_update_sends.
  - by apply wh_update_data_keywords.
  - intros k v. rewrite wh_update_data_keywords by done.
    change (dict_comp Webhooks.update_keeps (list_to_map kws))
      with (ServiceRequests.update_data (list_to_map kws)).
    rewrite sr_update_data_lookup.
    rewrite (elem_of_list_to_map (M := gmap string)) by done.
    destruct (list_to_map kws !! k) as [w|]; simpl;
      [|split; [done|by intros [? _]]].
    rewrite when_set_Some. split.
    + by intros [-> ?].
    + intros [? ?]. by simplify_eq.
Qed.

Lemma webhook_update_body_from_keywords_witness :
  ∃ p body,
    Webhooks.call_update
      (method_call Webhooks.self [VStr "wh_1"]
         [("is_active", VBool false); ("name", VNone)])
    = Enters p ∧
    body = ServiceRequests.update_data
             (list_to_map [("is_active", VBool false); ("name", VNone)]).
Proof.
  destruct (webhook_update_body_from_keywords "wh_1"
              [("is_active", VBool false); ("name", VNone)])
    as (p & body & Hcall & _ & Hbody & _).
  - apply (bool_decide_unpack _). vm_compute. reflexivity.
  - apply (bool_decide_unpack _). vm_compute. reflexivity.
  - exists p, body. split; [exact Hcall|exact Hbody].
Defined.

(** X8. No [update] body ever holds a [None]; a [create] body of a
    service request holds one for [title] alone, and only when the
    caller passes [title=None], which is sent as it is. *)
Theorem bodies_hold_no_none :
  (∀ kwargs k v,
     ServiceRequests.update_data kwargs !! k = Some v → v ≠ VNone) ∧
  (∀ name url events is_active k v,
     Webhooks.update_data name url events is_active !! k = Some v →
     v ≠ VNone) ∧
  (∀ title client_id description status source priority requested_date
     preferred_time address contact_name contact_email contact_phone notes k,
     ServiceRequests.create_data title client_id description status source
       priority requested_date preferred_time address contact_name
       contact_email contact_phone notes !! k = Some VNone →
     k = "title" ∧ title = VNone) ∧
  (∀ client_id description status source priority requested_date
     preferred_time address contact_name contact_email contact_phone notes,
     ServiceRequests.create_data VNone client_id description status source
       priority requested_date preferred_time address contact_name
       contact_email contact_phone notes !! "title" = Some VNone).
Proof.
  repeat apply conj.
  - intros kwargs k v. rewrite sr_update_data_lookup.
    destruct (kwargs !! k) as [w|]; simpl; [|done].
    rewrite when_set_Some. by intros [<- ?].
  - intros name url events is_active k v. rewrite wh_update_data_lookup.
    destruct (_ !! k) as [w|]; simpl; [|done].
    rewrite when_set_Some. by intros [<- ?].
  - intros until k. unfold ServiceRequests.create_data.
    rewrite dict_comp_lookup.
    destruct (_ !! k) as [w|] eqn:E; [|done].
    unfold ServiceRequests.create_keeps.
    destruct (is_none w) eqn:Hw, (String.eqb_spec k "title") as [->|Hne];
      simpl; intros [= ->]; try done.
    split; [done|]. revert E.
    unfold ServiceRequests.create_fields, dict_display. cbn [foldl fst snd].
    simplify_map_eq. by intros [= ->].
  - intros. unfold ServiceRequests.create_data. rewrite dict_comp_lookup.
    unfold ServiceRequests.create_fields, dict_display. cbn [foldl fst snd].
    by simplify_map_eq.
Qed.

Lemma bodies_hold_no_none_witness :
  VStr "scheduled" ≠ VNone ∧ ("title" = "title" ∧ VNone = VNone).
Proof.
  destruct bodies_hold_no_none as (Hsr & _ & Hcreate & _). split.
  - apply (Hsr {[ "status" := VStr "scheduled" ]} "status").
    vm_compute. reflexivity.
  - apply (Hcreate VNone VNone VNone VNone VNone VNone VNone VNone VNone
             VNone VNone VNone VNone "title").
    vm_compute. reflexivity.
Defined.

(* ===================================================================== *)
(** ** Further properties: the requests                                   *)
(* ===================================================================== *)

Lemma append_inj_l (p a b : string) : p ++ a = p ++ b → a = b.
Proof.
  induction p as [|c p IH]; [done|].
  change (String c (p ++ a) = String c (p ++ b) → a = b).
  intros [= H]. auto.
Qed.

Lemma append_length (a s : string) :
  String.length (a ++ s) = (String.length a + String.length s)%nat.
Proof.
  induction a as [|c a IH]; [done|].
  change (String c a ++ s) with (String c (a ++ s)). cbn. by rewrite IH.
Qed.

Lemma append_inj_r (a b s : string) : a ++ s = b ++ s → a = b.
Proof.
  revert b. induction a as [|c a IH]; intros [|c' b] H.
  - done.
  - apply (f_equal String.length) in H.
    rewrite !append_length in H. cbn in H. lia.
  - apply (f_equal String.length) in H.
    rewrite !append_length in H. cbn in H. lia.
  - change (String c (a ++ s) = String c' (b ++ s)) in H.
    injection H as -> H. f_equal. by apply IH.
Qed.

(** The path of the one request a body makes. *)
Lemma path_of_call {St} (t : transport St) s (r : request) :
  r_path <$> o_requests (run t (Call r Ret) s) = [r_path r].
Proof. by rewrite run_call. Qed.

Lemma path_of_call_discard {St} (t : transport St) s (r : request) :
  r_path <$> o_requests (run t (_ ← Call r Ret; mret VNone) s) = [r_path r].
Proof. by rewrite run_call_discard. Qed.

(** X9. Within one method, different ids never share a URL: the path of
    the request determines the id, for every method that takes one. *)
Theorem path_determines_id :
  ∀ St (t : transport St) (s : St) (a b : string),
    (r_path <$> o_requests (run t (ServiceRequests.get a) s)
     = r_path <$> o_requests (run t (ServiceRequests.get b) s) → a = b) ∧
    (∀ ka kb,
       r_path <$> o_requests (run t (ServiceRequests.update a ka) s)
       = r_path <$> o_requests (run t (ServiceRequests.update b kb) s) →
       a = b) ∧
    (r_path <$> o_requests (run t (ServiceRequests.delete a) s)
     = r_path <$> o_requests (run t (ServiceRequests.delete b) s) → a = b) ∧
    (r_path <$> o_requests (run t (Webhooks.get a) s)
     = r_path <$> o_requests (run t (Webhooks.get b) s) → a = b) ∧
    (∀ n1 u1 e1 a1 n2 u2 e2 a2,
       r_path <$> o_requests (run t (Webhooks.update a n1 u1 e1 a1) s)
       = r_path <$> o_requests (run t (Webhooks.update b n2 u2 e2 a2) s) →
       a = b) ∧
    (r_path <$> o_requests (run t (Webhooks.delete a) s)
     = r_path <$> o_requests (run t (Webhooks.delete b) s) → a = b) ∧
    (∀ p1 q1 e1 p2 q2 e2,
       r_path <$> o_requests (run t (Webhooks.list_deliveries a p1 q1 e1) s)
       = r_path <$> o_requests (run t (Webhooks.list_deliveries b p2 q2 e2) s) →
       a = b) ∧
    (r_path <$> o_requests (run t (Webhooks.test a) s)
     = r_path <$> o_requests (run t (Webhooks.test b) s) → a = b).
Proof.
  intros St t s a b.
  unfold ServiceRequests.get, ServiceRequests.update, ServiceRequests.delete,
    Webhooks.get, Webhooks.update, Webhooks.delete, Webhooks.list_deliveries,
    Webhooks.test, client_get, client_put, client_post, client_delete.
  repeat apply conj; intros;
    repeat match goal with
    | H : context [run _ (Call _ Ret) _] |- _ => rewrite !path_of_call in H
    | H : context [run _ (_ ← Call _ Ret; mret VNone) _] |- _ =>
        rewrite !path_of_call_discard in H
    end;
    match goal with H : [_] = [_] |- _ => injection H as H end;
    cbn [r_path] in *.
  all: try by apply append_inj_l in H.
  all: apply append_inj_l in H; by apply append_inj_r in H.
Qed.

Lemma path_determines_id_witness : "sr_1" = "sr_1" ∧ "wh_1" = "wh_1".
Proof.
  destruct (path_determines_id nat (replying VNone) 0 "sr_1" "sr_1")
    as (Hget & _).
  destruct (path_determines_id nat (replying VNone) 0 "wh_1" "wh_1")
    as (_ & _ & _ & _ & _ & _ & _ & Htest).
  split; [apply Hget|apply Htest]; reflexivity.
Defined.

(** X10. The id goes into the path as it is, unescaped: an id that ends
    in [/deliveries] makes [webhooks.get] send the very GET that
    [list_deliveries] sends for the id before it (but for the query),
    and one that ends in [/test] makes [get] and [delete] address the
    URL of [test]. *)
Theorem id_is_not_escaped :
  ∀ St (t : transport St) (s : St) (id : string),
    (∀ page per_page event_type,
       (λ r, (r_verb r, r_path r))
         <$> o_requests (run t (Webhooks.get (id ++ "/deliveries")) s)
       = (λ r, (r_verb r, r_path r))
           <$> o_requests
                 (run t (Webhooks.list_deliveries id page per_page
                           event_type) s)) ∧
    r_path <$> o_requests (run t (Webhooks.get (id ++ "/test")) s)
    = r_path <$> o_requests (run t (Webhooks.test id) s) ∧
    r_path <$> o_requests (run t (Webhooks.delete (id ++ "/test")) s)
    = r_path <$> o_requests (run t (Webhooks.test id) s).
Proof.
  intros St t s id. repeat apply conj; intros.
  - unfold Webhooks.get, Webhooks.list_deliveries, client_get.
    by rewrite !run_call.
  - unfold Webhooks.get, Webhooks.test, client_get, client_post.
    by rewrite !path_of_call.
  - unfold Webhooks.delete, Webhooks.test, client_delete, client_post.
    by rewrite path_of_call_discard, path_of_call.
Qed.

(** X11. No request carries both a query and a body, and each verb has
    its own: a GET never has [json=], a POST or PUT never has
    [params=], a PUT always has a body, a DELETE has neither. *)
Theorem query_and_body_by_verb :
  ∀ (i : invocation) St (t : transport St) (s : St),
    Forall
      (λ r, match r_verb r with
            | GET => r_json r = None
            | POST => r_params r = None
            | PUT => r_params r = None ∧ is_Some (r_json r)
            | DELETE => r_params r = None ∧ r_json r = None
            end)
      (o_requests (run t (body i) s)).
Proof.
  intros i St t s.
  destruct i; cbn [body];
    unfold ServiceRequests.list, ServiceRequests.get, ServiceRequests.create,
      ServiceRequests.update, ServiceRequests.delete, Webhooks.list,
      Webhooks.get, Webhooks.create, Webhooks.update, Webhooks.delete,
      Webhooks.list_deliveries, Webhooks.test,
      client_get, client_put, client_post, client_delete;
    rewrite ?run_call, ?run_call_discard; cbn [o_requests];
    repeat constructor; by eexists.
Qed.

(* ===================================================================== *)
(** ** Further properties: the methods against the parameter types        *)
(* ===================================================================== *)

(** Deciding a closed statement about finite sets or lists of names. *)
Ltac decided := apply (bool_decide_unpack _); vm_compute; reflexivity.

(** Equality of two finite sets of names that are written out. *)
Ltac same_names :=
  try match goal with
  | |- _ = list_to_set ?l =>
      let l' := eval vm_compute in l in change l with l'
  end;
  cbn [list_to_set];
  apply set_eq; intros ?;
  rewrite ?elem_of_union, ?elem_of_singleton, ?elem_of_empty; tauto.

Ltac display_dom :=
  unfold dict_display; cbn [foldl fst snd];
  rewrite !dom_insert_L, dom_empty_L; same_names.

Lemma sr_create_fields_dom
    title client_id description status source priority requested_date
    preferred_time address contact_name contact_email contact_phone notes :
  dom (ServiceRequests.create_fields title client_id description status
         source priority requested_date preferred_time address contact_name
         contact_email contact_phone notes)
  = list_to_set (Types.keys Types.CreateServiceRequestParams).
Proof.
  unfold ServiceRequests.create_fields, Types.CreateServiceRequestParams.
  display_dom.
Qed.

Lemma wh_update_fields_dom name url events is_active :
  dom (Webhooks.update_fields name url events is_active)
  = list_to_set (Types.keys Types.UpdateWebhookParams).
Proof.
  unfold Webhooks.update_fields, Types.UpdateWebhookParams. display_dom.
Qed.

(** X12. The keys a method sends are the keys its parameter type in
    [types.py] declares. A [create] body of a service request holds only
    keys of [CreateServiceRequestParams] and always its one required key,
    [title]; it holds nothing else when the optional arguments are left
    out and every key when all are strings. A webhook [create] body holds
    exactly the keys of [CreateWebhookParams], all of them required; a
    webhook [update] body holds only keys of [UpdateWebhookParams], none
    of them required. The query of [list] and of [list_deliveries] holds
    exactly the keys of [ListServiceRequestsParams] and of
    [ListWebhookDeliveriesParams]. *)
Theorem sent_keys_follow_parameter_types :
  (∀ title client_id description status source priority requested_date
     preferred_time address contact_name contact_email contact_phone notes,
     let body :=
       ServiceRequests.create_data title client_id description status source
         priority requested_date preferred_time address contact_name
         contact_email contact_phone notes in
     dom body ⊆ list_to_set (Types.keys Types.CreateServiceRequestParams) ∧
     list_to_set (Types.required_keys Types.CreateServiceRequestParams)
       ⊆ dom body) ∧
  (∀ title : string,
     dom (ServiceRequests.create_data (VStr title) VNone VNone VNone VNone
            VNone VNone VNone VNone VNone VNone VNone VNone)
     = list_to_set (Types.required_keys Types.CreateServiceRequestParams)) ∧
  (∀ title s1 s2 s3 s4 s5 s6 s7 s8 s9 s10 s11 s12 : string,
     dom (ServiceRequests.create_data (VStr title) (VStr s1) (VStr s2)
            (VStr s3)
            (VStr s4) (VStr s5) (VStr s6) (VStr s7) (VStr s8) (VStr s9)
            (VStr s10) (VStr s11) (VStr s12))
     = list_to_set (Types.keys Types.CreateServiceRequestParams)) ∧
  (∀ name url events,
     dom (Webhooks.create_data name url events)
     = list_to_set (Types.required_keys Types.CreateWebhookParams)) ∧
  Types.required_keys Types.CreateWebhookParams
  = Types.keys Types.CreateWebhookParams ∧
  (∀ name url events is_active,
     dom (Webhooks.update_data name url events is_active)
     ⊆ list_to_set (Types.keys Types.UpdateWebhookParams)) ∧
  Types.required_keys Types.UpdateWebhookParams = [] ∧
  (∀ page per_page search sort order status priority client_id,
     dom (ServiceRequests.list_params page per_page search sort order status
            priority client_id)
     = list_to_set (Types.keys Types.ListServiceRequestsParams)) ∧
  (∀ page per_page event_type,
     dom (Webhooks.list_deliveries_params page per_page event_type)
     = list_to_set (Types.keys Types.ListWebhookDeliveriesParams)).
Proof.
  repeat apply conj.
  - intros; repeat match goal with x := _ |- _ => subst x end. split.
    + etrans; [apply dom_filter_subseteq|]. by rewrite sr_create_fields_dom.
    + intros k Hk. apply elem_of_list_to_set in Hk.
      cbn in Hk. keyword_cases Hk.
      apply elem_of_dom. unfold ServiceRequests.create_data.
      rewrite dict_comp_lookup.
      unfold ServiceRequests.create_fields, dict_display.
      cbn [foldl fst snd]. simplify_map_eq.
      unfold ServiceRequests.create_keeps. rewrite orb_true_r. by eexists.
  - intros title.
    replace (ServiceRequests.create_data (VStr title) VNone VNone VNone VNone
               VNone VNone VNone VNone VNone VNone VNone VNone)
      with ({[ "title" := VStr title ]} : dict) by (vm_compute; reflexivity).
    rewrite dom_singleton_L. same_names.
  - intros.
    rewrite <-(sr_create_fields_dom (VStr title) (VStr s1) (VStr s2)
                 (VStr s3) (VStr s4) (VStr s5) (VStr s6) (VStr s7) (VStr s8)
                 (VStr s9) (VStr s10) (VStr s11) (VStr s12)).
    unfold ServiceRequests.create_data, dict_comp.
    rewrite map_filter_id; [done|]. intros k v.
    unfold ServiceRequests.create_fields, dict_display.
    cbn [foldl fst snd]. intros Hk.
    repeat (apply lookup_insert_Some in Hk as [[<- <-]|[_ Hk]]; [done|]).
    by rewrite lookup_empty in Hk.
  - intros. unfold Webhooks.create_data, Types.CreateWebhookParams.
    display_dom.
  - reflexivity.
  - intros. etrans; [apply dom_filter_subseteq|].
    by rewrite wh_update_fields_dom.
  - reflexivity.
  - intros. unfold ServiceRequests.list_params,
      Types.ListServiceRequestsParams. display_dom.
  - intros. unfold Webhooks.list_deliveries_params,
      Types.ListWebhookDeliveriesParams. display_dom.
Qed.

(* ===================================================================== *)
(** ** Further properties: every parameter has a value                    *)
(* ===================================================================== *)



